(** * Session feature pipeline of the Transformers4Rec tutorial notebooks

    A shallow embedding of the data-preparation cells of
    [01-preprocess] (src/unnamed/part_001) and
    [examples/tutorial/02-ETL-with-NVTabular.ipynb], of the batch
    selection of the inference notebooks and of the day-by-day loop of
    the training notebooks, with the properties the specification
    states about them and further properties read off the code.

    Data frames are lists of rows; a column is the list obtained by
    mapping a field over the rows.  Integer columns are [Z], the item
    recency works on exact rationals, the cyclical encoding on real
    numbers and the relative price on binary64 floats. *)

From Stdlib Require Import String.
From Stdlib Require Import ZArith QArith Qminmax List Bool Lia Permutation Sorted.
From Stdlib Require Import Reals Lra Floats.
Import ListNotations.

Set Implicit Arguments.

(** ** Data-frame primitives (pandas / cuDF) *)

Module Frame.

Section Columns.
Context {A : Type}.

(** [Series.shift(1)]: every value moves one row down, the first row
    becomes null and the last value falls off. *)
Definition shift1 (col : list A) : list (option A) :=
  match col with
  | [] => []
  | _ :: _ => None :: map Some (removelast col)
  end.

(** [Series.fillna(v)] *)
Definition fillna (v : A) (col : list (option A)) : list A :=
  map (fun o => match o with Some x => x | None => v end) col.

(** [reset_index(drop=True)]: rows are labelled 0, 1, 2, ... *)
Definition reset_index (rows : list A) : list (nat * A) :=
  combine (seq 0 (length rows)) rows.

(** [df[mask]]: the rows whose mask entry is true, labels kept. *)
Definition boolean_mask (df : list A) (mask : list bool) : list A :=
  map fst (filter snd (combine df mask)).
End Columns.

(** Element-wise binary operation on two columns. *)
Fixpoint zip_with {A B C : Type} (f : A -> B -> C)
         (xs : list A) (ys : list B) : list C :=
  match xs, ys with
  | x :: xs', y :: ys' => f x y :: zip_with f xs' ys'
  | _, _ => []
  end.

(** [sort_values]: the rows in the given order, by insertion.  Rows with
    equal keys keep their relative order here; the data-frame library
    promises no order among them, and no property below depends on
    it. *)
Section Sorting.
Context {A : Type}.
Variable leb : A -> A -> bool.

Fixpoint insert (x : A) (l : list A) : list A :=
  match l with
  | [] => [x]
  | y :: l' => if leb x y then x :: l else y :: insert x l'
  end.

Fixpoint sort_values (l : list A) : list A :=
  match l with
  | [] => []
  | x :: l' => insert x (sort_values l')
  end.
End Sorting.

End Frame.

(** ** NVTabular operators used by the notebooks *)

Module Nvt.

(** Modelled from the spec: the [Categorify] operator of NVTabular, which
    the notebooks only call.  Fitting collects the distinct non-null
    values of the column; a null (and a value outside the fitted
    vocabulary) is encoded as [start_index], the fitted values as the
    integers that follow it. *)
Section Categorify.
Context {K : Type}.
Variable eq_dec : forall x y : K, {x = y} + {x <> y}.

Fixpoint dropna (col : list (option K)) : list K :=
  match col with
  | [] => []
  | Some x :: col' => x :: dropna col'
  | None :: col' => dropna col'
  end.

(** The fitted vocabulary: each observed value once. *)
Definition categories (col : list (option K)) : list K :=
  nodup eq_dec (dropna col).

Fixpoint index_of (x : K) (cats : list K) : option nat :=
  match cats with
  | [] => None
  | y :: cats' =>
      if eq_dec x y then Some O
      else match index_of x cats' with
           | Some i => Some (S i)
           | None => None
           end
  end.

Definition encode (start_index : Z) (cats : list K) (v : option K) : Z :=
  match v with
  | None => start_index
  | Some x =>
      match index_of x cats with
      | Some i => start_index + 1 + Z.of_nat i
      | None => start_index
      end
  end.

(** [fit] then [transform] on the same column. *)
Definition Categorify (start_index : Z) (col : list (option K)) : list Z :=
  map (encode start_index (categories col)) col.

(** The values that receive a code of their own: the null, which stands
    for the unknown value, and the values met in the column. *)
Definition observed (col : list (option K)) (v : option K) : Prop :=
  v = None \/ In v col.

(** Number of codes in use: the unknown code and one per fitted value. *)
Definition cardinality (col : list (option K)) : Z :=
  1 + Z.of_nat (List.length (categories col)).
End Categorify.

(** Modelled from the spec: the [ListSlice] operator of NVTabular.  Each
    list is cut to [row[start:end]]; with [pad] the lists shorter than
    [end - start] are extended on the right with [pad_value]. *)
Definition ListSlice {A : Type} (start end_ : nat) (pad : bool) (pad_value : A)
           (row : list A) : list A :=
  let max_elements := (end_ - start)%nat in
  let v := skipn start (firstn end_ row) in
  if pad && (List.length v <? max_elements)%nat
  then v ++ repeat pad_value (max_elements - List.length v)
  else v.

End Nvt.

(** ** 01-preprocess: the interaction log *)

Module Preproc.
Import Frame.
Open Scope Z_scope.

(** One row of [raw_df] as read from the CSV file. *)
Record RawEvent := mkRawEvent {
  raw_event_time    : string;
  raw_event_type    : string;
  raw_product_id    : Z;
  raw_category_id   : Z;
  raw_category_code : option string;
  raw_brand         : option string;
  raw_price         : Q;
  raw_user_id       : Z;
  raw_user_session  : option string
}.

(** One row of [df], after [user_session] has been categorified. *)
Record Interaction := mkInteraction {
  event_type    : string;
  product_id    : Z;
  category_id   : Z;
  category_code : option string;
  brand         : option string;
  price         : Q;
  user_id       : Z;
  event_time_ts : Z;
  user_session  : Z
}.

(** Modelled from the spec: the failure of the run on an event time that
    cannot be parsed.  The source casts the whole column with
    [astype('datetime64[s]')] and has no error class of its own. *)
Inductive RunError := MalformedTimestamp.

Section Timestamps.
(** The parser of cuDF for date-time strings, epoch seconds on success. *)
Variable parse_event_time : string -> option Z.

(** [raw_df['event_time'].astype('datetime64[s]')] followed by
    [astype('int')]: the column is converted as a whole. *)
Fixpoint astype_datetime (col : list string) : RunError + list Z :=
  match col with
  | [] => inr []
  | s :: col' =>
      match parse_event_time s with
      | None => inl MalformedTimestamp
      | Some ts =>
          match astype_datetime col' with
          | inl e => inl e
          | inr tss => inr (ts :: tss)
          end
      end
  end.

(** [raw_df[raw_df['user_session'].isnull()==False]] *)
Definition drop_null_sessions (df : list (RawEvent * Z)) : list (RawEvent * Z) :=
  filter (fun r => match raw_user_session (fst r) with
                   | Some _ => true
                   | None => false
                   end) df.

(** [['user_session'] >> nvt.ops.Categorify()], the other columns are
    passed through. *)
Definition categorify_user_session (df : list (RawEvent * Z)) : list Interaction :=
  let codes := Nvt.Categorify string_dec 0 (map (fun r => raw_user_session (fst r)) df) in
  zip_with (fun r code =>
              {| event_type := raw_event_type (fst r);
                 product_id := raw_product_id (fst r);
                 category_id := raw_category_id (fst r);
                 category_code := raw_category_code (fst r);
                 brand := raw_brand (fst r);
                 price := raw_price (fst r);
                 user_id := raw_user_id (fst r);
                 event_time_ts := snd r;
                 user_session := code |}) df codes.

(** The cells from the CSV file to the categorified [df]. *)
Definition load_interactions (raw_df : list RawEvent) : RunError + list Interaction :=
  match astype_datetime (map raw_event_time raw_df) with
  | inl e => inl e
  | inr tss => inr (categorify_user_session (drop_null_sessions (combine raw_df tss)))
  end.
End Timestamps.

(** Order of [sort_values(['user_session', 'event_time_ts'])]. *)
Definition session_time_leb (a b : Interaction) : bool :=
  (user_session a <? user_session b)
  || ((user_session a =? user_session b)
      && (event_time_ts a <=? event_time_ts b)).

Definition sort_session_time (df : list Interaction) : list Interaction :=
  sort_values session_time_leb df.

(** Two rows of the same session on the same item. *)
Definition same_session_item (a b : Interaction) : bool :=
  (user_session a =? user_session b) && (product_id a =? product_id b).



(** The first row of every run. *)
Definition run_heads (rs : list (list Interaction)) : list Interaction :=
  flat_map (firstn 1) rs.




(** Session identifiers as [Categorify] produces them for non-null
    values: the code 0 is the one of nulls. *)
Definition valid_session_ids (df : list Interaction) : Prop :=
  Forall (fun r => 0 < user_session r) df.

(** The mask of the rows that are kept:
    [~((user_session == session_id_past) & (product_id == product_id_past))]. *)
Definition keep_mask (df : list (nat * Interaction)) : list bool :=
  let product_id_past := fillna 0 (shift1 (map (fun r => product_id (snd r)) df)) in
  let session_id_past := fillna 0 (shift1 (map (fun r => user_session (snd r)) df)) in
  map negb
      (zip_with andb
         (zip_with Z.eqb (map (fun r => user_session (snd r)) df) session_id_past)
         (zip_with Z.eqb (map (fun r => product_id (snd r)) df) product_id_past)).

(** The same mask computed row by row, the identifiers of the previous
    row being passed along ([0] and [0] in front of the first row). *)
Fixpoint keep_from (session_id_past product_id_past : Z)
         (df : list Interaction) : list bool :=
  match df with
  | [] => []
  | r :: df' =>
      negb ((user_session r =? session_id_past)
            && (product_id r =? product_id_past))
      :: keep_from (user_session r) (product_id r) df'
  end.

(** The cell "Removing consecutive repeated (user, item) interactions".
    The result keeps the row labels given by [reset_index]. *)
Definition remove_consecutive_repeats (df : list Interaction)
  : list (nat * Interaction) :=
  let df := reset_index (sort_session_time df) in
  boolean_mask df (keep_mask df).

(** A small log: session 1 views item 7 twice in a row, then item 8,
    then item 7 again; session 2 views item 7 once. *)
Definition view (item ts session : Z) : Interaction :=
  {| event_type := "view"; product_id := item; category_id := 1;
     category_code := None; brand := None; price := 1%Q; user_id := 1;
     event_time_ts := ts; user_session := session |}.

Definition sample_log : list Interaction :=
  [view 7 5 2; view 7 40 1; view 8 30 1; view 7 20 1; view 7 10 1].

(** A raw file of two rows, the second with an event time that is not
    a date, and a parser that knows one date. *)
Definition sample_parse (s : string) : option Z :=
  if string_dec s "2019-10-01 00:00:00 UTC"%string then Some 1569888000 else None.

Definition raw_view (time : string) : RawEvent :=
  {| raw_event_time := time; raw_event_type := "view"; raw_product_id := 7;
     raw_category_id := 1; raw_category_code := None; raw_brand := None;
     raw_price := 1%Q; raw_user_id := 1; raw_user_session := Some "s"%string |}.

Definition sample_raw : list RawEvent :=
  [raw_view "2019-10-01 00:00:00 UTC"%string; raw_view "yesterday"%string].

(** The [min] aggregation of a group; a group is never empty. *)
Fixpoint agg_min (col : list Z) : option Z :=
  match col with
  | [] => None
  | x :: col' =>
      match agg_min col' with
      | None => Some x
      | Some m => Some (Z.min x m)
      end
  end.

(** The time at which an item is seen first: the least event time over
    the rows of the item, none when the item has no row. *)
Definition first_seen (df : list Interaction) (item : Z) : option Z :=
  agg_min (map event_time_ts (filter (fun r => product_id r =? item) df)).

(** [df.groupby('product_id').agg({'event_time_ts': 'min'})], renamed to
    [prod_first_event_time_ts]: one row per item. *)
Definition item_first_interaction_df (df : list Interaction) : list (Z * Z) :=
  flat_map
    (fun p =>
       match agg_min (map event_time_ts
                          (filter (fun r => product_id r =? p) df)) with
       | Some m => [(p, m)]
       | None => []
       end)
    (nodup Z.eq_dec (map product_id df)).

(** [df.merge(right, on=['product_id'], how='left')]: every left row is
    paired with each right row of the same item, or with a null when
    there is none.  The rows are listed in the order of the left frame;
    the data-frame library promises no order of the result, and the
    properties below speak of its rows, not of their order. *)
Definition merge_left (df : list Interaction) (right : list (Z * Z))
  : list (Interaction * option Z) :=
  flat_map
    (fun r =>
       match filter (fun kv => fst kv =? product_id r) right with
       | [] => [(r, None)]
       | ms => map (fun kv => (r, Some (snd kv))) ms
       end)
    df.

(** [df] with the column [prod_first_event_time_ts]. *)
Definition add_first_seen (df : list Interaction) : list (Interaction * option Z) :=
  merge_left df (item_first_interaction_df df).

(** The row of [df] made from a raw row, its time and its session code. *)
Definition loaded_row (x : RawEvent * Z) (code : Z) : Interaction :=
  {| event_type := raw_event_type (fst x);
     product_id := raw_product_id (fst x);
     category_id := raw_category_id (fst x);
     category_code := raw_category_code (fst x);
     brand := raw_brand (fst x);
     price := raw_price (fst x);
     user_id := raw_user_id (fst x);
     event_time_ts := snd x;
     user_session := code |}.

(** A raw file that loads: its second row has no session, the third
    row belongs to another session than the first. *)
Definition raw_click (session : option string) : RawEvent :=
  {| raw_event_time := "2019-10-01 00:00:00 UTC"; raw_event_type := "view";
     raw_product_id := 7; raw_category_id := 1; raw_category_code := None;
     raw_brand := None; raw_price := 1%Q; raw_user_id := 1;
     raw_user_session := session |}.

Definition sample_raw_ok : list RawEvent :=
  [raw_click (Some "s"%string); raw_click None; raw_click (Some "t"%string)].

(** [raw_df['user_session'].isnull()==False] on one row. *)
Definition has_session (r : RawEvent) : bool :=
  match raw_user_session r with
  | Some _ => true
  | None => false
  end.

(** The number of days from the first of January 1970 to a date of the
    Gregorian calendar, and [np.datetime64] of a date in seconds. *)
Definition days_from_civil (y m d : Z) : Z :=
  let y' := if m <=? 2 then y - 1 else y in
  let era := y' / 400 in
  let yoe := y' - era * 400 in
  let doy := (153 * (if 2 <? m then m - 3 else m + 9) + 2) / 5 + d - 1 in
  let doe := yoe * 365 + yoe / 4 - yoe / 100 + doy in
  era * 146097 + doe - 719468.

Definition datetime64 (y m d : Z) : Z := days_from_civil y m d * 86400.

(** [df[df['event_time_dt'] < np.datetime64('2019-10-08')]]: the first
    week of the data, with any other end of the period as well. *)
Definition before (cutoff : Z) (df : list (Interaction * option Z))
  : list (Interaction * option Z) :=
  filter (fun r => event_time_ts (fst r) <? cutoff) df.

Definition first_week (df : list (Interaction * option Z))
  : list (Interaction * option Z) :=
  before (datetime64 2019 10 8) df.

(** The cells from the categorified [df] to the frame that is written to
    [Oct-2019.parquet]. *)
Definition to_parquet (df : list Interaction) : list (Interaction * option Z) :=
  first_week (add_first_seen (map snd (remove_consecutive_repeats df))).

End Preproc.

(** ** 02-ETL-with-NVTabular: features, sessions and windows *)

Module ETL.
Import Frame.
Open Scope Z_scope.

(** *** Temporal features *)

(** [col.dt.weekday] of a time given in epoch seconds: Monday is 0 and
    the first of January 1970 was a Thursday. *)
Definition et_dayofweek (event_time_ts : Z) : Z :=
  (event_time_ts / 86400 + 3) mod 7.

Definition get_cycled_feature_value_sin (col max_value : R) : R :=
  let value_scaled := ((col + 0.000001) / max_value)%R in
  sin (2 * PI * value_scaled).

Definition get_cycled_feature_value_cos (col max_value : R) : R :=
  let value_scaled := ((col + 0.000001) / max_value)%R in
  cos (2 * PI * value_scaled).

(** [lambda col: get_cycled_feature_value_sin(col+1, 7)] *)
Definition weekday_sin (col : Z) : R :=
  get_cycled_feature_value_sin (IZR col + 1) 7.

Definition weekday_cos (col : Z) : R :=
  get_cycled_feature_value_cos (IZR col + 1) 7.

(** The two features of a weekday as a point of the plane, and the
    distance of two such points. *)
Definition weekday_encoding (col : Z) : R * R := (weekday_sin col, weekday_cos col).

Definition euclidean_distance (a b : R * R) : R :=
  R_sqrt.sqrt ((fst a - fst b) * (fst a - fst b)
               + (snd a - snd b) * (snd a - snd b))%R.

(** *** Item recency *)

(** [ItemRecency.transform] on one row: [col] is [event_time_ts].  The
    quotient of the two integers is kept exact. *)
Definition ItemRecency_transform (col item_first_timestamp : Z) : Q :=
  let delta_days :=
    (inject_Z (col - item_first_timestamp) / inject_Z (60 * 60 * 24))%Q in
  (delta_days * (if Qle_bool 0 delta_days then 1 else 0))%Q.

(** *** Relative price, on binary64 floats *)

(** [epsilon = 1e-5]: the binary64 value that the literal denotes. *)
Definition epsilon : float := 0x1.4f8b588e368f1p-17%float.

(** [(col > 0).astype(int)], converted back to a float by the product. *)
Definition astype_int (b : bool) : float :=
  if b then 1%float else 0%float.

(** [relative_price_to_avg_categ(col, gdf)] on one row: [col] is the mean
    price of the row's category and [price] is [gdf['price']]. *)
Definition relative_price_to_avg_categ (col price : float) : float :=
  (((price - col) / (col + epsilon)) * astype_int (0 <? col))%float.

(** *** Grouping interactions into sessions *)

(** The list-aggregated categorical and continuous columns. *)
Inductive CatCol :=
  product_id | category_code | brand | category_id.

Inductive ContCol :=
  et_dayofweek_sin | et_dayofweek_cos | price_log_norm
| relative_price_to_avg_categ_id | product_recency_days_log_norm.

(** One row of [groupby_feats]; [event_time_dt] is [event_time_ts] read
    as a date-time with a resolution of one second. *)
Record Row := mkRow {
  user_session  : Z;
  user_id       : Z;
  event_time_ts : Z;
  cat           : CatCol -> Z;
  cont          : ContCol -> Q
}.

(** One row of [groupby_features]. *)
Record Session := mkSession {
  g_user_session      : Z;
  user_id_first       : Z;
  product_id_count    : Z;
  cat_list            : CatCol -> list Z;
  cont_list           : ContCol -> list Q;
  event_time_ts_first : Z;
  event_time_dt_first : Z
}.

(** One row of [selected_features]. *)
Record SessionRecord := mkSessionRecord {
  out_user_session     : Z;
  out_product_id_count : Z;
  cat_list_seq         : CatCol -> list Z;
  cont_list_seq        : ContCol -> list Q;
  out_day_index        : Z
}.

Definition event_time_leb (a b : Row) : bool :=
  event_time_ts a <=? event_time_ts b.

(** The group keys, each once.  They are listed in increasing order;
    the order of the groups is not fixed by the source and no property
    below depends on it. *)
Definition groupby_keys (df : list Row) : list Z :=
  sort_values Z.leb (nodup Z.eq_dec (map user_session df)).

(** Modelled from the spec: the [Groupby] operator of NVTabular with
    [groupby_cols=["user_session"]] and [sort_cols=["event_time_ts"]].
    The frame is sorted by time, then every session collects its rows
    in that order; [first] is the head of the list and [count] its
    length. *)
Definition Groupby (df : list Row) : list Session :=
  let sorted := sort_values event_time_leb df in
  map (fun s =>
         let g := filter (fun r => user_session r =? s) sorted in
         {| g_user_session := s;
            user_id_first := hd 0 (map user_id g);
            product_id_count := Z.of_nat (List.length (map (fun r => cat r product_id) g));
            cat_list := fun c => map (fun r => cat r c) g;
            cont_list := fun c => map (fun r => cont r c) g;
            event_time_ts_first := hd 0 (map event_time_ts g);
            event_time_dt_first := hd 0 (map event_time_ts g) |})
      (groupby_keys df).

Definition groupby_features := Groupby.

Definition SESSIONS_MAX_LENGTH : nat := 20.
Definition MINIMUM_SESSION_LENGTH : Z := 2.

(** [cat_feats]: [Categorify(start_index=1)] on one of the columns
    [user_session], [category_code], [brand], [user_id], [product_id],
    [category_id] and [event_type]. *)
Definition cat_feats {K : Type} (eq_dec : forall x y : K, {x = y} + {x <> y})
           (col : list (option K)) : list Z :=
  Nvt.Categorify eq_dec 1 col.

(** A column of brands with a null and a repetition. *)
Definition sample_brands : list (option string) :=
  [Some "acme"%string; None; Some "bolt"%string; Some "acme"%string].

(** [groupby_features_list >> ListSlice(0, SESSIONS_MAX_LENGTH, pad=True)];
    the padding value is the default of the operator. *)
Definition groupby_features_trim_cat (l : list Z) : list Z :=
  Nvt.ListSlice 0 SESSIONS_MAX_LENGTH true 0 l.

Definition groupby_features_trim_cont (l : list Q) : list Q :=
  Nvt.ListSlice 0 SESSIONS_MAX_LENGTH true 0%Q l.

(** [col.min()] *)
Definition column_min (col : list Z) : Z :=
  fold_right Z.min (hd 0 col) col.

(** [.dt.days] of a difference of date-times, given in seconds. *)
Definition dt_days (timedelta : Z) : Z := timedelta / 86400.

(** [lambda col: (col - col.min()).dt.days + 1] on the column
    [event_time_dt-first]. *)
Definition day_index (col : list Z) : list Z :=
  map (fun x => dt_days (x - column_min col) + 1) col.

(** [groupby_features['user_session', 'product_id-count'] +
     groupby_features_trim + day_index] *)
Definition selected_features (sessions : list Session) : list SessionRecord :=
  zip_with (fun g d =>
              {| out_user_session := g_user_session g;
                 out_product_id_count := product_id_count g;
                 cat_list_seq := fun c => groupby_features_trim_cat (cat_list g c);
                 cont_list_seq := fun c => groupby_features_trim_cont (cont_list g c);
                 out_day_index := d |})
           sessions (day_index (map event_time_dt_first sessions)).

(** [Filter(f=lambda df: df["product_id-count"] >= MINIMUM_SESSION_LENGTH)] *)
Definition filtered_sessions (df : list SessionRecord) : list SessionRecord :=
  filter (fun r => MINIMUM_SESSION_LENGTH <=? out_product_id_count r) df.

(** The rows of one session in the order of their event times, as the
    specification describes a session. *)
Definition session_sequence (df : list Row) (s : Z) : list Row :=
  sort_values event_time_leb (filter (fun r => user_session r =? s) df).

(** The first [min(count, 20)] entries of a sequence, padded on the
    right with the sentinel up to the length 20. *)
Definition padded_window {A : Type} (sentinel : A) (l : list A) : list A :=
  firstn (Nat.min (List.length l) 20) l
  ++ repeat sentinel (20 - Nat.min (List.length l) 20).

(** [t] is the time of the first event of session [s]. *)
Definition is_session_start (df : list Row) (s t : Z) : Prop :=
  (exists r, In r df /\ user_session r = s /\ event_time_ts r = t)
  /\ (forall r, In r df -> user_session r = s -> t <= event_time_ts r).

(** [m] is the least time of a first event over all sessions. *)
Definition is_first_day (df : list Row) (m : Z) : Prop :=
  (exists s, is_session_start df s m)
  /\ (forall s t, is_session_start df s t -> m <= t).

(** The calendar date of a time, as the number of its day since the
    first of January 1970. *)
Definition event_date (ts : Z) : Z := ts / 86400.

(** The day index as the specification words it, on dates: the number
    of days from the date of the earliest first event to the date of
    the session's first event, plus one. *)
Definition day_index_by_dates (df : list Row) : Prop :=
  forall rec start first_day,
    In rec (selected_features (groupby_features df)) ->
    is_session_start df (out_user_session rec) start ->
    is_first_day df first_day ->
    out_day_index rec = event_date start - event_date first_day + 1.

(** A session is long enough when it has at least two interactions. *)
Definition long_enough (df : list Row) (s : Z) : bool :=
  MINIMUM_SESSION_LENGTH <=? Z.of_nat (List.length (session_sequence df s)).

(** The aggregates of one session, computed from its sequence. *)
Definition session_of (df : list Row) (s : Z) : Session :=
  let g := session_sequence df s in
  {| g_user_session := s;
     user_id_first := hd 0 (map user_id g);
     product_id_count := Z.of_nat (List.length (map (fun r => cat r product_id) g));
     cat_list := fun c => map (fun r => cat r c) g;
     cont_list := fun c => map (fun r => cont r c) g;
     event_time_ts_first := hd 0 (map event_time_ts g);
     event_time_dt_first := hd 0 (map event_time_ts g) |}.

(** The record of one session, [first_day] being the least value of
    [event_time_dt-first] over the sessions. *)
Definition record_of (first_day : Z) (g : Session) : SessionRecord :=
  {| out_user_session := g_user_session g;
     out_product_id_count := product_id_count g;
     cat_list_seq := fun c => groupby_features_trim_cat (cat_list g c);
     cont_list_seq := fun c => groupby_features_trim_cont (cont_list g c);
     out_day_index := dt_days (event_time_dt_first g - first_day) + 1 |}.

(** A small frame: session 1 has one interaction, session 2 has five
    and starts six days after session 1, session 3 has twenty-five. *)
Definition interaction (session ts item : Z) : Row :=
  {| user_session := session; user_id := 1; event_time_ts := ts;
     cat := fun c => match c with product_id => item | _ => 1 end;
     cont := fun _ => (1 # 2)%Q |}.

Definition sample_frame : list Row :=
  interaction 1 100 9
  :: map (fun i => interaction 2 (518500 + Z.of_nat i) (10 + Z.of_nat i)) (seq 0 5)
  ++ map (fun i => interaction 3 (200 + Z.of_nat i) (20 + Z.of_nat i)) (seq 0 25).

(** Two sessions of one interaction each.  In the first frame session 1
    starts at 23:00 of the first day and session 2 at 01:00 of the
    second day; in the second frame session 2 starts at 01:00 of the
    seventh day. *)
Definition next_date_frame : list Row :=
  [interaction 1 82800 9; interaction 2 90000 9].

Definition six_dates_frame : list Row :=
  [interaction 1 82800 9; interaction 2 (6 * 86400 + 3600) 9].

(** [workflow.transform(dataset)] for [nvt.Workflow(filtered_sessions)]. *)
Definition workflow_transform (df : list Row) : list SessionRecord :=
  filtered_sessions (selected_features (groupby_features df)).

End ETL.

(** ** Inference notebooks: the batch sent to the server *)

Module Inference.
Import Frame.
Open Scope Z_scope.

Section Batch.
Context {A : Type}.

(** The column that holds the session of a row, and its event time. *)
Variable session_col : A -> Z.
Variable time_col : A -> Z.

Definition time_leb (a b : A) : bool := time_col a <=? time_col b.

(** [Series.value_counts()]: every value of the column with the number
    of its rows.  The order of the result is not used. *)
Definition value_counts (col : list Z) : list (Z * nat) :=
  map (fun k => (k, count_occ Z.eq_dec col k)) (nodup Z.eq_dec col).

(** [Series.isin(values)] *)
Definition isin (col : list Z) (values : list Z) : list bool :=
  map (fun x => existsb (Z.eqb x) values) col.

(** [batch[batch.user_session.isin(
       sessions_to_use[sessions_to_use.values>1].index.values)]] *)
Definition filtered_batch (batch : list A) : list A :=
  let sessions_to_use := value_counts (map session_col batch) in
  boolean_mask batch
    (isin (map session_col batch)
          (map fst (filter (fun kv => (1 <? snd kv)%nat) sessions_to_use))).

(** 04-Inference-with-Triton: [df.sort_values('event_time_ts')], then
    [df.iloc[:50,:]]. *)
Definition first_rows (df : list A) : list A :=
  firstn 50 (sort_values time_leb df).

(** The TensorFlow notebook: [sort_values('timestamp')], then [df[-50:]]. *)
Definition last_rows (df : list A) : list A :=
  let sorted := sort_values time_leb df in
  skipn (List.length sorted - 50) sorted.
End Batch.

End Inference.

(** ** Training notebooks: one day after the other *)

Module Training.
Open Scope Z_scope.

(** [range(start, stop)] *)
Definition range (start stop : Z) : list Z :=
  map (fun i => start + Z.of_nat i) (seq 0 (Z.to_nat (stop - start))).

(** What the loop does with the data of a day. *)
Inductive Step :=
| Train (day : Z)
| Evaluate (day : Z).

(** The loop over [range(start_time_window_index, final_time_window_index)]:
    train on the files of [time_index], then evaluate on those of
    [time_index + 1]. *)
Definition time_windows (start_time_window_index final_time_window_index : Z)
  : list Step :=
  flat_map (fun time_index =>
              let time_index_train := time_index in
              let time_index_eval := time_index + 1 in
              [Train time_index_train; Evaluate time_index_eval])
           (range start_time_window_index final_time_window_index).

End Training.

(** * Properties *)

(** ** Facts on the data-frame primitives *)

Section FrameFacts.
Import Frame.

Lemma zip_with_length {A B C : Type} (f : A -> B -> C) xs ys :
  List.length xs = List.length ys ->
  List.length (zip_with f xs ys) = List.length xs.
Proof.
  revert ys; induction xs as [|x xs IH]; intros [|y ys]; simpl; try congruence.
  intros H; f_equal; apply IH; congruence.
Qed.

Lemma zip_with_map_l {A B C : Type} (f : A -> B -> C) xs ys :
  List.length xs = List.length ys ->
  zip_with f xs ys = map (fun p => f (fst p) (snd p)) (combine xs ys).
Proof.
  revert ys; induction xs as [|x xs IH]; intros [|y ys]; simpl; try congruence.
  intros H; f_equal; apply IH; congruence.
Qed.

(** [shift(1).fillna(d)] puts [d] in front and forgets the last value. *)
Lemma fillna_shift1 {A : Type} (d : A) (col : list A) :
  fillna d (shift1 col) =
  match col with [] => [] | _ :: _ => d :: removelast col end.
Proof.
  destruct col as [|x col]; [reflexivity|].
  unfold shift1, fillna. cbn [map]. f_equal.
  rewrite map_map. apply map_id.
Qed.

Lemma boolean_mask_cons {A : Type} (x : A) l (b : bool) m :
  boolean_mask (x :: l) (b :: m) =
  if b then x :: boolean_mask l m else boolean_mask l m.
Proof. unfold boolean_mask; simpl; destruct b; reflexivity. Qed.

(** Rows selected out of a labelled frame: label [i] is selected exactly
    when the mask is true at row [i]. *)
Lemma boolean_mask_labels {A : Type} (l : list A) (m : list bool) k i x :
  List.length m = List.length l ->
  In (i, x) (boolean_mask (combine (seq k (List.length l)) l) m) <->
  (k <= i)%nat /\ nth_error l (i - k) = Some x /\ nth_error m (i - k) = Some true.
Proof.
  revert m k; induction l as [|y l IH]; intros [|b m] k Hlen; simpl in Hlen;
    try discriminate.
  - cbn. split; [tauto|]. intros (_ & H & _). destruct (i - k)%nat; discriminate.
  - cbn [List.length seq combine]. rewrite boolean_mask_cons.
    assert (Hl : List.length m = List.length l) by congruence.
    specialize (IH m (S k) Hl).
    destruct (Nat.eq_dec i k) as [->|Hne].
    + rewrite Nat.sub_diag. cbn [nth_error].
      destruct b; cbn [In]; rewrite ?IH; split.
      * intros [H|H]; [inversion H; subst; auto|lia].
      * intros (_ & H & _); left; congruence.
      * lia.
      * intros (_ & _ & H); discriminate.
    + destruct b; cbn [In]; rewrite ?IH; split.
      * intros [H|(H1 & H2 & H3)]; [inversion H; subst; congruence|].
        replace (i - k)%nat with (S (i - S k)) by lia. cbn [nth_error]. auto with arith.
      * intros (H1 & H2 & H3). right.
        replace (i - k)%nat with (S (i - S k)) in H2, H3 by lia.
        cbn [nth_error] in H2, H3. split; [lia|auto].
      * intros (H1 & H2 & H3).
        replace (i - k)%nat with (S (i - S k)) by lia. cbn [nth_error]. split; [lia|auto].
      * intros (H1 & H2 & H3).
        replace (i - k)%nat with (S (i - S k)) in H2, H3 by lia.
        cbn [nth_error] in H2, H3. split; [lia|auto].
Qed.

(** Forgetting the labels of the selected rows. *)
Lemma boolean_mask_unlabel {A : Type} (l : list A) (m : list bool) k :
  List.length m = List.length l ->
  map snd (boolean_mask (combine (seq k (List.length l)) l) m) = boolean_mask l m.
Proof.
  revert m k; induction l as [|y l IH]; intros [|b m] k Hlen; simpl in Hlen;
    try discriminate; [reflexivity|].
  cbn [List.length seq combine]. rewrite !boolean_mask_cons.
  destruct b; cbn [map snd]; rewrite IH by congruence; reflexivity.
Qed.

(** [sort_values] rearranges the rows, puts them in order, and commutes
    with the selection of rows. *)
Section SortFacts.
Context {A : Type}.
Variable leb : A -> A -> bool.
Hypothesis leb_total : forall a b, leb a b = true \/ leb b a = true.
Hypothesis leb_trans : forall a b c, leb a b = true -> leb b c = true -> leb a c = true.

Let le (a b : A) : Prop := leb a b = true.

Lemma insert_perm x l : Permutation (x :: l) (insert leb x l).
Proof.
  induction l as [|y l IH]; simpl; [apply Permutation_refl|].
  destruct (leb x y); [apply Permutation_refl|].
  eapply perm_trans; [apply perm_swap|]. now apply perm_skip.
Qed.

Lemma sort_values_perm l : Permutation l (sort_values leb l).
Proof.
  induction l as [|x l IH]; simpl; [constructor|].
  eapply perm_trans; [apply perm_skip, IH|apply insert_perm].
Qed.

Lemma sort_values_In x l : In x (sort_values leb l) <-> In x l.
Proof.
  split; apply Permutation_in;
    [apply Permutation_sym|]; apply sort_values_perm.
Qed.

Lemma sort_values_length l : List.length (sort_values leb l) = List.length l.
Proof. symmetry; apply Permutation_length, sort_values_perm. Qed.

Lemma insert_sorted x l :
  StronglySorted le l -> StronglySorted le (insert leb x l).
Proof.
  induction 1 as [|y l Hs IH Hy]; simpl; [repeat constructor|].
  destruct (leb x y) eqn:E.
  - constructor; [constructor; assumption|].
    constructor; [exact E|].
    eapply Forall_impl; [|exact Hy]. intros z Hz. eapply leb_trans; eauto.
  - constructor; [exact IH|].
    eapply Permutation_Forall; [apply insert_perm|].
    constructor; [|exact Hy].
    destruct (leb_total x y) as [H|H]; [congruence|exact H].
Qed.

Lemma sort_values_sorted l : StronglySorted le (sort_values leb l).
Proof.
  induction l as [|x l IH]; simpl; [constructor|now apply insert_sorted].
Qed.

Lemma insert_below x l :
  Forall (le x) l -> insert leb x l = x :: l.
Proof.
  destruct l as [|y l]; [reflexivity|]. intros H; inversion H; subst.
  simpl. unfold le in *. now rewrite H2.
Qed.

Lemma filter_insert (p : A -> bool) x l :
  StronglySorted le l ->
  filter p (insert leb x l) =
  if p x then insert leb x (filter p l) else filter p l.
Proof.
  induction 1 as [|y l Hs IH Hy]; simpl.
  - destruct (p x); reflexivity.
  - destruct (leb x y) eqn:E.
    + cbn [filter]. destruct (p x) eqn:Px; [|reflexivity].
      symmetry. apply (insert_below (l := filter p (y :: l))).
      apply Forall_forall. intros z Hz. apply filter_In in Hz as [Hz _].
      destruct Hz as [<-|Hz]; [exact E|].
      rewrite Forall_forall in Hy. eapply leb_trans; [exact E|now apply Hy].
    + cbn [filter]. rewrite IH.
      destruct (p y), (p x); simpl; rewrite ?E; reflexivity.
Qed.

Lemma filter_sort_values (p : A -> bool) l :
  filter p (sort_values leb l) = sort_values leb (filter p l).
Proof.
  induction l as [|x l IH]; [reflexivity|]. simpl.
  rewrite filter_insert by apply sort_values_sorted.
  rewrite IH. destruct (p x); reflexivity.
Qed.
End SortFacts.

End FrameFacts.

(** ** Removal of consecutive repetitions *)

Section Dedup.
Import Frame Preproc.
Open Scope Z_scope.

Lemma map_snd_labels {A B : Type} (f : A -> B) (l : list A) k :
  map (fun r : nat * A => f (snd r)) (combine (seq k (List.length l)) l) = map f l.
Proof.
  revert k; induction l as [|x l IH]; intros k; [reflexivity|].
  cbn [List.length seq combine map snd]. now rewrite IH.
Qed.

Lemma removelast_cons {A : Type} (a : A) (xs : list A) :
  removelast (a :: xs) = match xs with [] => [] | _ :: _ => a :: removelast xs end.
Proof. destruct xs; reflexivity. Qed.

Lemma keep_from_length ds dp l : List.length (keep_from ds dp l) = List.length l.
Proof. revert ds dp; induction l; intros; simpl; auto. Qed.

Lemma keep_from_columns (l : list Interaction) ds dp :
  map negb
      (zip_with andb
         (zip_with Z.eqb (map user_session l)
            match map user_session l with
            | [] => []
            | _ :: _ => ds :: removelast (map user_session l)
            end)
         (zip_with Z.eqb (map product_id l)
            match map product_id l with
            | [] => []
            | _ :: _ => dp :: removelast (map product_id l)
            end)) = keep_from ds dp l.
Proof.
  revert ds dp; induction l as [|r l IH]; intros ds dp; [reflexivity|].
  cbn [map]. rewrite !removelast_cons. cbn [zip_with map keep_from].
  f_equal. specialize (IH (user_session r) (product_id r)).
  destruct l; [reflexivity|exact IH].
Qed.

Lemma keep_mask_rows (l : list Interaction) k :
  keep_mask (combine (seq k (List.length l)) l) = keep_from 0 0 l.
Proof.
  unfold keep_mask. rewrite !map_snd_labels, !fillna_shift1.
  apply keep_from_columns.
Qed.

(** The rows that are kept, without their labels. *)
Lemma remove_consecutive_repeats_rows df :
  map snd (remove_consecutive_repeats df) =
  boolean_mask (sort_session_time df) (keep_from 0 0 (sort_session_time df)).
Proof.
  unfold remove_consecutive_repeats, reset_index.
  rewrite keep_mask_rows. apply boolean_mask_unlabel, keep_from_length.
Qed.

Lemma remove_consecutive_repeats_In df i r :
  In (i, r) (remove_consecutive_repeats df) <->
  nth_error (sort_session_time df) i = Some r
  /\ nth_error (keep_from 0 0 (sort_session_time df)) i = Some true.
Proof.
  unfold remove_consecutive_repeats, reset_index.
  rewrite keep_mask_rows, boolean_mask_labels by apply keep_from_length.
  rewrite Nat.sub_0_r. split; [tauto|]. intros; split; [lia|tauto].
Qed.

Lemma keep_from_head ds dp r l :
  nth_error (keep_from ds dp (r :: l)) 0 =
  Some (negb ((user_session r =? ds) && (product_id r =? dp))).
Proof. reflexivity. Qed.

(** Away from the first row the mask compares a row with the row before. *)
Lemma keep_from_succ l : forall ds dp i p r,
  nth_error l i = Some p -> nth_error l (S i) = Some r ->
  nth_error (keep_from ds dp l) (S i) = Some (negb (same_session_item r p)).
Proof.
  induction l as [|x l IH]; intros ds dp i p r Hp Hr; [destruct i; discriminate|].
  destruct i as [|i].
  - cbn in Hp. inversion Hp; subst x. destruct l as [|y l]; [discriminate|].
    cbn in Hr. inversion Hr; subst y. reflexivity.
  - cbn [nth_error] in Hp, Hr. cbn [keep_from nth_error]. eapply IH; eauto.
Qed.

Lemma session_time_leb_total a b :
  session_time_leb a b = true \/ session_time_leb b a = true.
Proof.
  unfold session_time_leb.
  destruct (Z.ltb_spec (user_session a) (user_session b)); [now left|].
  destruct (Z.ltb_spec (user_session b) (user_session a)); [now right|].
  assert (E : user_session a = user_session b) by lia.
  rewrite E, Z.eqb_refl. cbn [orb andb].
  destruct (Z.leb_spec (event_time_ts a) (event_time_ts b)); [now left|].
  right. apply Z.leb_le. lia.
Qed.

Lemma session_time_leb_trans a b c :
  session_time_leb a b = true -> session_time_leb b c = true ->
  session_time_leb a c = true.
Proof.
  unfold session_time_leb. rewrite !orb_true_iff, !andb_true_iff.
  rewrite !Z.ltb_lt, !Z.eqb_eq, !Z.leb_le. lia.
Qed.

Lemma sort_session_time_valid df :
  valid_session_ids df -> valid_session_ids (sort_session_time df).
Proof.
  unfold valid_session_ids, sort_session_time. rewrite !Forall_forall.
  intros H r Hr. apply H. now apply sort_values_In in Hr.
Qed.

(** The mask entry of a row of the sorted frame: the first row is kept,
    any other row is kept unless it repeats the row before it. *)
Lemma keep_from_entry l i r :
  valid_session_ids l -> nth_error l i = Some r ->
  match i with
  | O => nth_error (keep_from 0 0 l) i = Some true
  | S j => exists p, nth_error l j = Some p
                     /\ nth_error (keep_from 0 0 l) i
                        = Some (negb (same_session_item r p))
  end.
Proof.
  intros Hv Hr. destruct i as [|j].
  - destruct l as [|x l]; [discriminate|]. cbn in Hr. inversion Hr; subst x.
    rewrite keep_from_head. inversion Hv; subst.
    replace (user_session r =? 0) with false by (symmetry; apply Z.eqb_neq; lia).
    reflexivity.
  - destruct (nth_error l j) as [p|] eqn:Hp.
    + exists p. split; [reflexivity|]. eapply keep_from_succ; eauto.
    + apply nth_error_None in Hp.
      assert (S j < List.length l)%nat by (apply nth_error_Some; congruence). lia.
Qed.

Lemma same_session_item_true a b :
  same_session_item a b = true <->
  user_session a = user_session b /\ product_id a = product_id b.
Proof. unfold same_session_item. now rewrite andb_true_iff, !Z.eqb_eq. Qed.

(** A labelled row is kept when it is the first row of the sorted frame
    or differs from the row before it in session or item. *)
Lemma kept_iff df i r :
  valid_session_ids df ->
  (In (i, r) (remove_consecutive_repeats df) <->
   nth_error (sort_session_time df) i = Some r
   /\ match i with
      | O => True
      | S j => exists p, nth_error (sort_session_time df) j = Some p
                         /\ same_session_item r p = false
      end).
Proof.
  intros Hv. apply sort_session_time_valid in Hv.
  rewrite remove_consecutive_repeats_In. split.
  - intros [Hr Hk]. split; [exact Hr|].
    pose proof (keep_from_entry i Hv Hr) as He. destruct i as [|j]; [exact I|].
    destruct He as (p & Hp & Hm). exists p. split; [exact Hp|].
    rewrite Hm in Hk. inversion Hk as [E].
    now destruct (same_session_item r p).
  - intros [Hr Hk]. split; [exact Hr|].
    pose proof (keep_from_entry i Hv Hr) as He. destruct i as [|j]; [exact He|].
    destruct He as (p & Hp & Hm). destruct Hk as (p' & Hp' & E).
    rewrite Hp in Hp'. inversion Hp'; subst p'. now rewrite Hm, E.
Qed.

(** C2. The frame is put in the order of session and time.  In that
    order a row is dropped exactly when its session and its item are
    those of the row just before it.  Hence of two adjacent rows of one
    session on the same item at most one is kept (the later one is
    dropped), while a repetition of an earlier item of the session is
    kept whenever the row just before it carries another item. *)
Theorem consecutive_duplicate_removal (df : list Interaction) :
  valid_session_ids df ->
  let sorted := sort_session_time df in
  let kept := remove_consecutive_repeats df in
  (Permutation df sorted
   /\ StronglySorted (fun a b => session_time_leb a b = true) sorted)
  /\ (forall i r, In (i, r) kept -> nth_error sorted i = Some r)
  /\ (forall i r, nth_error sorted i = Some r ->
        (~ In (i, r) kept <->
         exists j p, i = S j /\ nth_error sorted j = Some p
                     /\ user_session r = user_session p
                     /\ product_id r = product_id p))
  /\ (forall i p r,
        nth_error sorted i = Some p -> nth_error sorted (S i) = Some r ->
        user_session p = user_session r -> product_id p = product_id r ->
        ~ In (S i, r) kept)
  /\ (forall i j p q r,
        (i < j)%nat ->
        nth_error sorted i = Some p -> nth_error sorted j = Some q ->
        nth_error sorted (S j) = Some r ->
        user_session p = user_session r -> product_id p = product_id r ->
        product_id q <> product_id r ->
        In (S j, r) kept).
Proof.
  intros Hv sorted kept.
  assert (Hiff : forall i r, nth_error sorted i = Some r ->
        (~ In (i, r) kept <->
         exists j p, i = S j /\ nth_error sorted j = Some p
                     /\ user_session r = user_session p
                     /\ product_id r = product_id p)).
  { intros i r Hr. unfold kept. rewrite (kept_iff i r Hv). fold sorted. split.
    - intros Hn. destruct i as [|j]; [exfalso; apply Hn; auto|].
      destruct (nth_error sorted j) as [p|] eqn:Hp.
      + exists j, p. destruct (same_session_item r p) eqn:E.
        * apply same_session_item_true in E. tauto.
        * exfalso. apply Hn. split; [exact Hr|]. exists p. auto.
      + apply nth_error_None in Hp.
        assert (S j < List.length sorted)%nat by (apply nth_error_Some; congruence).
        lia.
    - intros (j & p & -> & Hp & Hs & Hi) (_ & p' & Hp' & E).
      rewrite Hp in Hp'. inversion Hp'; subst p'.
      assert (E' : same_session_item r p = true)
        by now apply same_session_item_true.
      congruence. }
  split; [|split; [|split; [exact Hiff|split]]].
  - split; [apply sort_values_perm|].
    apply sort_values_sorted;
      [apply session_time_leb_total|apply session_time_leb_trans].
  - intros i r Hin. now apply (kept_iff i r Hv) in Hin.
  - intros i p r Hp Hr Hs Hi. apply (Hiff (S i) r Hr).
    exists i, p. auto.
  - intros i j p q r Hij Hp Hq Hr Hs Hi Hne.
    apply (kept_iff (S j) r Hv). fold sorted. split; [exact Hr|].
    exists q. split; [exact Hq|].
    unfold same_session_item. apply andb_false_iff. right.
    apply Z.eqb_neq. congruence.
Qed.

(** *** Runs of repetitions *)










Example sample_log_sorted :
  sort_session_time sample_log =
  [view 7 10 1; view 7 20 1; view 8 30 1; view 7 40 1; view 7 5 2].
Proof. reflexivity. Qed.

Example sample_log_kept :
  remove_consecutive_repeats sample_log =
  [(0%nat, view 7 10 1); (2%nat, view 8 30 1); (3%nat, view 7 40 1);
   (4%nat, view 7 5 2)].
Proof. reflexivity. Qed.

Lemma sample_log_valid : valid_session_ids sample_log.
Proof. unfold valid_session_ids, sample_log. repeat constructor. Defined.

Lemma consecutive_duplicate_removal_witness :
  valid_session_ids sample_log
  /\ ~ In (1%nat, view 7 20 1) (remove_consecutive_repeats sample_log)
  /\ In (3%nat, view 7 40 1) (remove_consecutive_repeats sample_log).
Proof.
  split; [exact sample_log_valid|].
  destruct (consecutive_duplicate_removal sample_log_valid)
    as (_ & _ & _ & Hadj & Hrep).
  split.
  - apply (Hadj 0%nat (view 7 10 1) (view 7 20 1)); reflexivity.
  - apply (Hrep 0%nat 2%nat (view 7 10 1) (view 8 30 1) (view 7 40 1));
      [lia|reflexivity..|discriminate].
Defined.


End Dedup.

(** ** Item first-seen time and recency *)

Section Recency.
Import Frame Preproc.
Open Scope Z_scope.

Lemma agg_min_spec col m :
  agg_min col = Some m -> In m col /\ (forall x, In x col -> m <= x).
Proof.
  revert m; induction col as [|x col IH]; intros m; [discriminate|].
  cbn [agg_min]. destruct (agg_min col) as [m'|] eqn:E.
  - intros H; inversion H; subst m. destruct (IH m' eq_refl) as [Hin Hle].
    split.
    + destruct (Z.min_spec x m') as [[_ ->]|[_ ->]]; [now left|now right].
    + intros y [<-|Hy]; [lia|]. specialize (Hle y Hy). lia.
  - intros H; inversion H; subst m. destruct col; [|cbn in E; destruct (agg_min col); discriminate].
    split; [now left|]. intros y Hy. cbn in Hy. destruct Hy as [<-|[]]. lia.
Qed.

Lemma agg_min_nonempty x col : exists m, agg_min (x :: col) = Some m.
Proof. cbn. destruct (agg_min col); eauto. Qed.

Lemma filter_none {A : Type} (f : A -> bool) (l : list A) :
  (forall x, In x l -> f x = false) -> filter f l = [].
Proof.
  induction l as [|x l IH]; intros H; [reflexivity|].
  cbn. rewrite (H x (or_introl eq_refl)). apply IH. intros y Hy. apply H. now right.
Qed.

(** The rows of the first-seen table that carry item [p]. *)
Lemma filter_item_table (g : Z -> list (Z * Z)) (keys : list Z) (p : Z) :
  NoDup keys ->
  (forall k kv, In kv (g k) -> fst kv = k) ->
  filter (fun kv => fst kv =? p) (flat_map g keys) =
  if in_dec Z.eq_dec p keys then g p else [].
Proof.
  intros Hnd Hg. induction Hnd as [|k keys Hk Hnd IH]; [reflexivity|].
  cbn [flat_map]. rewrite filter_app, IH.
  assert (Hall : forall q, filter (fun kv => fst kv =? q) (g k) =
                           if Z.eq_dec k q then g k else []).
  { intros q. destruct (Z.eq_dec k q) as [->|Hne].
    - apply forallb_filter_id. apply forallb_forall. intros kv Hkv.
      apply Z.eqb_eq. now apply Hg.
    - apply filter_none. intros kv Hkv. apply Z.eqb_neq.
      rewrite (Hg k kv Hkv). exact Hne. }
  rewrite Hall. destruct (in_dec Z.eq_dec p (k :: keys)) as [Hin|Hnin].
  - destruct (Z.eq_dec k p) as [->|Hne].
    + destruct (in_dec Z.eq_dec p keys); [contradiction|]. apply app_nil_r.
    + destruct (in_dec Z.eq_dec p keys); [reflexivity|].
      destruct Hin; [congruence|contradiction].
  - destruct (Z.eq_dec k p) as [->|Hne]; [exfalso; apply Hnin; now left|].
    destruct (in_dec Z.eq_dec p keys); [exfalso; apply Hnin; now right|reflexivity].
Qed.

Lemma item_table_lookup df p :
  In p (map product_id df) ->
  exists m, first_seen df p = Some m
            /\ filter (fun kv => fst kv =? p) (item_first_interaction_df df)
               = [(p, m)].
Proof.
  intros Hin. unfold item_first_interaction_df.
  rewrite filter_item_table.
  - destruct (in_dec Z.eq_dec p (nodup Z.eq_dec (map product_id df))) as [_|Hn];
      [|exfalso; apply Hn; now apply nodup_In].
    apply in_map_iff in Hin as (r & Hp & Hr).
    assert (Hf : In r (filter (fun r => product_id r =? p) df))
      by (apply filter_In; split; [exact Hr|now apply Z.eqb_eq]).
    unfold first_seen.
    destruct (filter (fun r => product_id r =? p) df) as [|x l]; [destruct Hf|].
    destruct (agg_min_nonempty (event_time_ts x) (map event_time_ts l)) as [m Hm].
    cbn [map]. rewrite Hm. eauto.
  - apply NoDup_nodup.
  - intros k kv. destruct (agg_min _); cbn; [|tauto].
    intros [<-|[]]; reflexivity.
Qed.

(** The left merge adds to every row the first-seen time of its item and
    neither loses nor repeats a row. *)
Lemma add_first_seen_rows df :
  add_first_seen df = map (fun r => (r, first_seen df (product_id r))) df.
Proof.
  unfold add_first_seen, merge_left.
  assert (H : forall l, incl l df ->
            flat_map (fun r =>
               match filter (fun kv => fst kv =? product_id r)
                            (item_first_interaction_df df) with
               | [] => [(r, None)]
               | ms => map (fun kv => (r, Some (snd kv))) ms
               end) l
            = map (fun r => (r, first_seen df (product_id r))) l).
  { induction l as [|r l IH]; intros Hl; [reflexivity|].
    cbn [flat_map]. rewrite IH by (intros x Hx; apply Hl; now right).
    destruct (item_table_lookup df (product_id r)) as (m & Hm & Hf).
    - apply in_map, Hl. now left.
    - rewrite Hf. cbn [map app snd]. now rewrite Hm. }
  apply H, incl_refl.
Qed.

Lemma first_seen_least df p m :
  first_seen df p = Some m ->
  (exists r, In r df /\ product_id r = p /\ event_time_ts r = m)
  /\ (forall r, In r df -> product_id r = p -> m <= event_time_ts r).
Proof.
  unfold first_seen. intros H. apply agg_min_spec in H as [Hin Hle]. split.
  - apply in_map_iff in Hin as (r & Hts & Hr). apply filter_In in Hr as [Hr Hp].
    exists r. repeat split; [exact Hr|now apply Z.eqb_eq|exact Hts].
  - intros r Hr Hp. apply Hle, in_map, filter_In. split; [exact Hr|].
    now apply Z.eqb_eq.
Qed.

(** The recency is the difference in days, negative values being
    replaced by zero. *)
Lemma ItemRecency_transform_max (col first : Z) :
  (ETL.ItemRecency_transform col first ==
   Qmax 0 ((inject_Z col - inject_Z first) / 86400))%Q
  /\ (0 <= ETL.ItemRecency_transform col first)%Q.
Proof.
  unfold ETL.ItemRecency_transform.
  change (inject_Z (60 * 60 * 24)) with 86400%Q.
  assert (E : (inject_Z (col - first) == inject_Z col - inject_Z first)%Q).
  { unfold Z.sub, Qminus. now rewrite inject_Z_plus, inject_Z_opp. }
  set (delta := (inject_Z (col - first) / 86400)%Q).
  assert (Ed : ((inject_Z col - inject_Z first) / 86400 == delta)%Q)
    by (unfold delta; now rewrite E).
  rewrite Ed. destruct (Qle_bool 0 delta) eqn:B.
  - apply Qle_bool_iff in B. split.
    + rewrite Q.max_r by exact B. ring.
    + rewrite Qmult_1_r. exact B.
  - assert (Hlt : (delta < 0)%Q).
    { apply Qnot_le_lt. intros H. apply Qle_bool_iff in H. congruence. }
    split.
    + rewrite Q.max_l by (apply Qlt_le_weak; exact Hlt). ring.
    + rewrite Qmult_0_r. apply Qle_refl.
Qed.

(** C3. Every row receives as first-seen time of its item the least
    event time over all rows with that item; the merge neither loses
    nor repeats a row.  Whatever the two times of a row, also when the
    first-seen time is the later one, its recency in days is the larger
    of zero and the difference of the times divided by 86400, and it is
    never negative. *)
Theorem recency_derivation (df : list Interaction) :
  (forall col first : Z,
      (ETL.ItemRecency_transform col first ==
       Qmax 0 ((inject_Z col - inject_Z first) / 86400))%Q
      /\ (0 <= ETL.ItemRecency_transform col first)%Q)
  /\ Permutation (map fst (add_first_seen df)) df
  /\ forall r o, In (r, o) (add_first_seen df) ->
       exists first,
         o = Some first
         /\ (exists r', In r' df /\ product_id r' = product_id r
                        /\ event_time_ts r' = first)
         /\ (forall r', In r' df -> product_id r' = product_id r ->
                        first <= event_time_ts r')
         /\ (ETL.ItemRecency_transform (event_time_ts r) first ==
             Qmax 0 ((inject_Z (event_time_ts r) - inject_Z first) / 86400))%Q
         /\ (0 <= ETL.ItemRecency_transform (event_time_ts r) first)%Q.
Proof.
  split; [intros col first; apply ItemRecency_transform_max|].
  rewrite add_first_seen_rows. split.
  - rewrite map_map. cbn. rewrite map_id. apply Permutation_refl.
  - intros r o Hin. apply in_map_iff in Hin as (r0 & Heq & Hr0).
    inversion Heq; subst r0. clear Heq.
    destruct (item_table_lookup df (product_id r)) as (m & Hm & _);
      [now apply in_map|].
    exists m. rewrite Hm. split; [reflexivity|].
    destruct (first_seen_least _ _ Hm) as [Hex Hle].
    split; [exact Hex|]. split; [exact Hle|].
    apply ItemRecency_transform_max.
Qed.

Example sample_log_first_seen :
  add_first_seen (map snd (remove_consecutive_repeats sample_log)) =
  [(view 7 10 1, Some 5); (view 8 30 1, Some 30); (view 7 40 1, Some 5);
   (view 7 5 2, Some 5)].
Proof. reflexivity. Qed.

Example recency_two_days : (ETL.ItemRecency_transform 172810 10 == 2)%Q.
Proof. reflexivity. Qed.

Example recency_clamped : (ETL.ItemRecency_transform 10 86410 == 0)%Q.
Proof. reflexivity. Qed.

End Recency.

(** ** Conversion of the event times *)

Section TimestampFacts.
Import Frame Preproc.
Open Scope Z_scope.

Variable parse_event_time : string -> option Z.

Lemma astype_datetime_inl col :
  (exists s, In s col /\ parse_event_time s = None) ->
  astype_datetime parse_event_time col = inl MalformedTimestamp.
Proof.
  induction col as [|s col IH]; intros (s0 & Hin & Hs0); [destruct Hin|].
  cbn [astype_datetime]. destruct (parse_event_time s) as [ts|] eqn:E; [|reflexivity].
  destruct Hin as [->|Hin]; [congruence|].
  rewrite IH by eauto. reflexivity.
Qed.

Lemma astype_datetime_inr col tss :
  astype_datetime parse_event_time col = inr tss ->
  Forall2 (fun s ts => parse_event_time s = Some ts) col tss.
Proof.
  revert tss; induction col as [|s col IH]; intros tss; cbn [astype_datetime].
  - intros H; inversion H; constructor.
  - destruct (parse_event_time s) as [ts|] eqn:E; [|discriminate].
    destruct (astype_datetime parse_event_time col) as [e|tss']; [discriminate|].
    intros H; inversion H; subst. constructor; auto.
Qed.

Lemma astype_datetime_total col :
  (forall s, In s col -> parse_event_time s <> None) ->
  exists tss, astype_datetime parse_event_time col = inr tss.
Proof.
  induction col as [|s col IH]; intros H; [now exists []|].
  cbn [astype_datetime]. destruct (parse_event_time s) as [ts|] eqn:E.
  - destruct IH as [tss ->]; [intros s' Hs'; apply H; now right|]. eauto.
  - exfalso. apply (H s); [now left|exact E].
Qed.

Lemma zip_with_In {A B C : Type} (f : A -> B -> C) xs ys z :
  In z (zip_with f xs ys) -> exists x y, In x xs /\ In y ys /\ z = f x y.
Proof.
  revert ys; induction xs as [|x xs IH]; intros [|y ys]; cbn; try tauto.
  intros [<-|H]; [exists x, y; auto|].
  destruct (IH ys H) as (x' & y' & ? & ? & ?). exists x', y'; auto.
Qed.

Lemma combine_parsed (raw_df : list RawEvent) tss r ts :
  Forall2 (fun s ts => parse_event_time s = Some ts) (map raw_event_time raw_df) tss ->
  In (r, ts) (combine raw_df tss) ->
  In r raw_df /\ parse_event_time (raw_event_time r) = Some ts.
Proof.
  revert tss; induction raw_df as [|x raw_df IH]; intros tss H Hin; [destruct Hin|].
  inversion H as [|? ? ? ? Hx Hrest]; subst. cbn in Hin.
  destruct Hin as [Heq|Hin].
  - inversion Heq; subst. split; [now left|exact Hx].
  - destruct (IH _ Hrest Hin). split; [now right|assumption].
Qed.

(** C9. When the event time of some row cannot be parsed the conversion
    stops the whole run with [MalformedTimestamp]: nothing is produced
    for any row.  A run that goes through has parsed every row, and
    every row handed to the later stages carries the parsed time of a
    row of the input. *)
Theorem malformed_timestamp_aborts_run (raw_df : list RawEvent) :
  ((exists r, In r raw_df /\ parse_event_time (raw_event_time r) = None) ->
   load_interactions parse_event_time raw_df = inl MalformedTimestamp)
  /\ (forall df, load_interactions parse_event_time raw_df = inr df ->
        (forall r, In r raw_df -> parse_event_time (raw_event_time r) <> None)
        /\ (forall row, In row df ->
              exists r, In r raw_df
                        /\ parse_event_time (raw_event_time r)
                           = Some (event_time_ts row)))
  /\ ((forall r, In r raw_df -> parse_event_time (raw_event_time r) <> None) ->
      exists df, load_interactions parse_event_time raw_df = inr df).
Proof.
  unfold load_interactions. split; [|split].
  - intros (r & Hr & Hnone). rewrite astype_datetime_inl; [reflexivity|].
    exists (raw_event_time r). split; [now apply in_map|exact Hnone].
  - intros df.
    destruct (astype_datetime parse_event_time (map raw_event_time raw_df))
      as [e|tss] eqn:E; [discriminate|].
    intros H; inversion H; subst df. clear H. split.
    + intros r Hr Hnone.
      rewrite astype_datetime_inl in E; [discriminate|].
      exists (raw_event_time r). split; [now apply in_map|exact Hnone].
    + intros row Hrow. apply astype_datetime_inr in E.
      unfold categorify_user_session in Hrow.
      apply zip_with_In in Hrow as (x & code & Hx & _ & ->).
      apply filter_In in Hx as [Hx _]. destruct x as [r ts].
      eapply combine_parsed in Hx; [|exact E]. destruct Hx as [Hr Hp].
      exists r. split; [exact Hr|exact Hp].
  - intros Hall.
    destruct (astype_datetime_total (map raw_event_time raw_df)) as [tss ->]; [|eauto].
    intros s Hs. apply in_map_iff in Hs as (r & <- & Hr). now apply Hall.
Qed.

End TimestampFacts.

(** ** Encoding of the categorical columns *)

Section CategorifyFacts.
Import Nvt.
Open Scope Z_scope.

Context {K : Type}.
Variable eq_dec : forall x y : K, {x = y} + {x <> y}.

Lemma dropna_In (col : list (option K)) x : In x (dropna col) <-> In (Some x) col.
Proof.
  induction col as [|[y|] col IH]; cbn; [tauto| |].
  - rewrite IH. split; intros [H|H]; auto; [left; congruence|left; congruence].
  - rewrite IH. split; [auto|]. intros [H|H]; [discriminate|exact H].
Qed.

Lemma categories_In col x : In x (categories eq_dec col) <-> In (Some x) col.
Proof. unfold categories. now rewrite nodup_In, dropna_In. Qed.

Lemma index_of_nth x cats i :
  index_of eq_dec x cats = Some i -> nth_error cats i = Some x.
Proof.
  revert i; induction cats as [|y cats IH]; intros i; [discriminate|].
  cbn [index_of]. destruct (eq_dec x y) as [->|Hne].
  - intros H; inversion H; reflexivity.
  - destruct (index_of eq_dec x cats) as [j|]; [|discriminate].
    intros H; inversion H; subst i. cbn. now apply IH.
Qed.

Lemma index_of_In x cats :
  In x cats -> exists i, index_of eq_dec x cats = Some i.
Proof.
  induction cats as [|y cats IH]; [intros []|]. intros Hin. cbn [index_of].
  destruct (eq_dec x y) as [->|Hne]; [eauto|].
  destruct Hin as [->|Hin]; [congruence|].
  destruct (IH Hin) as [i ->]. eauto.
Qed.

Lemma nth_index_of cats i x :
  NoDup cats -> nth_error cats i = Some x -> index_of eq_dec x cats = Some i.
Proof.
  intros Hnd; revert i; induction Hnd as [|y cats Hy Hnd IH]; intros i.
  - destruct i; discriminate.
  - destruct i as [|i]; cbn [nth_error index_of].
    + intros H; inversion H; subst. destruct (eq_dec x x); [reflexivity|congruence].
    + intros H. destruct (eq_dec x y) as [->|Hne].
      * exfalso. apply Hy. eapply nth_error_In; eauto.
      * now rewrite (IH i H).
Qed.

(** The code of an observed value, spelled out. *)
Lemma encode_observed start_index col v :
  observed col v ->
  (v = None /\ encode eq_dec start_index (categories eq_dec col) v = start_index)
  \/ (exists x i, v = Some x
                  /\ nth_error (categories eq_dec col) i = Some x
                  /\ encode eq_dec start_index (categories eq_dec col) v
                     = start_index + 1 + Z.of_nat i).
Proof.
  intros Hobs. destruct v as [x|]; [right|left; auto].
  destruct Hobs as [H|H]; [discriminate|].
  apply categories_In in H. destruct (index_of_In _ _ H) as [i Hi].
  exists x, i. cbn [encode]. rewrite Hi. repeat split.
  now apply index_of_nth with (1 := Hi).
Qed.

(** C7. With [start_index=1] the codes of the null and of the values met
    in a column fill the range from 1 to the cardinality, one code per
    value: the encoding is a bijection of these values onto that range.
    A null keeps its row and receives the code 1; no value, met or not,
    receives the code 0. *)
Theorem categorify_bijection (col : list (option K)) :
  let code := encode eq_dec 1 (categories eq_dec col) in
  ETL.cat_feats eq_dec col = map code col
  /\ code None = 1
  /\ (forall v, observed col v -> 1 <= code v <= cardinality eq_dec col)
  /\ (forall v w, observed col v -> observed col w -> code v = code w -> v = w)
  /\ (forall c, 1 <= c <= cardinality eq_dec col ->
        exists v, observed col v /\ code v = c)
  /\ (forall v, code v <> 0).
Proof.
  intros code. split; [reflexivity|]. split; [reflexivity|].
  assert (Hlen : forall i x, nth_error (categories eq_dec col) i = Some x ->
                 (i < List.length (categories eq_dec col))%nat).
  { intros i x H. apply nth_error_Some. congruence. }
  split; [|split; [|split]].
  - intros v Hv. unfold cardinality, code.
    destruct (encode_observed 1 Hv) as [[_ E]|(x & i & _ & Hn & E)];
      rewrite E; [lia|].
    specialize (Hlen _ _ Hn). lia.
  - intros v w Hv Hw Heq. unfold code in Heq.
    destruct (encode_observed 1 Hv) as [[Hvn Ev]|(x & i & Hvx & Hx & Ev)];
      destruct (encode_observed 1 Hw) as [[Hwn Ew]|(y & j & Hwy & Hy & Ew)];
      rewrite Ev, Ew in Heq; subst v w; try reflexivity; try lia.
    assert (i = j) by lia. subst j. congruence.
  - intros c Hc. unfold cardinality in Hc.
    destruct (Z.eq_dec c 1) as [->|Hne].
    + exists None. split; [now left|reflexivity].
    + assert (Hi : (Z.to_nat (c - 2) < List.length (categories eq_dec col))%nat) by lia.
      destruct (nth_error (categories eq_dec col) (Z.to_nat (c - 2))) as [x|] eqn:E;
        [|apply nth_error_None in E; lia].
      exists (Some x). split.
      * right. apply categories_In. eapply nth_error_In; eauto.
      * unfold code. cbn [encode].
        erewrite nth_index_of; [|apply NoDup_nodup|exact E]. lia.
  - intros [x|]; unfold code; cbn [encode]; [|discriminate].
    destruct (index_of eq_dec x (categories eq_dec col)); lia.
Qed.

(** Session identifiers encoded with the default [start_index] are
    positive when the column holds no null. *)
Lemma categorify_default_positive (col : list (option K)) c :
  Forall (fun v => v <> None) col ->
  In c (Categorify eq_dec 0 col) -> 0 < c.
Proof.
  intros Hnn Hc. unfold Categorify in Hc. apply in_map_iff in Hc as (v & <- & Hv).
  rewrite Forall_forall in Hnn. specialize (Hnn v Hv).
  destruct v as [x|]; [|congruence]. cbn [encode].
  apply categories_In in Hv. destruct (index_of_In _ _ Hv) as [i ->]. lia.
Qed.

End CategorifyFacts.

(** ** Cyclical encoding of the weekday *)

Section Cyclical.
Import ETL.
Open Scope R_scope.

Lemma et_dayofweek_range ts : (0 <= et_dayofweek ts <= 6)%Z.
Proof. unfold et_dayofweek. pose proof (Z.mod_pos_bound (ts / 86400 + 3) 7). lia. Qed.

(** The angle of a weekday. *)
Lemma weekday_angle (d : Z) :
  2 * PI * ((IZR d + 1 + 0.000001) / 7) = 2 * PI * (IZR d + 1 + 0.000001) / 7.
Proof. field. Qed.

(** Squared distance of two points of the unit circle. *)
Lemma unit_circle_distance (a b : R) :
  (sin a - sin b) * (sin a - sin b) + (cos a - cos b) * (cos a - cos b)
  = 2 - 2 * cos (a - b).
Proof.
  rewrite cos_minus.
  pose proof (sin2_cos2 a) as Ha. pose proof (sin2_cos2 b) as Hb.
  unfold Rsqr in Ha, Hb. nra.
Qed.

Lemma cos_six_sevenths_neg : cos (6 * PI / 7) < 0.
Proof. pose proof PI_RGT_0. apply cos_lt_0; lra. Qed.

Lemma cos_twelve_sevenths_pos : 0 < cos (12 * PI / 7).
Proof.
  pose proof PI_RGT_0.
  replace (12 * PI / 7) with (2 * PI - 2 * PI / 7) by field.
  rewrite cos_minus, cos_2PI, sin_2PI.
  assert (0 < cos (2 * PI / 7)) by (apply cos_gt_0; lra). lra.
Qed.

(** C5. The two features of the weekday [d] are the sine and the cosine
    of 2π(d+1+ε)/7 with ε = 1e-6; their squares add up to 1; and the
    encoding of day 6 is closer to the encoding of day 0 than the
    encoding of day 3 is. *)
Theorem cyclical_weekday_encoding :
  (forall d : Z,
      weekday_sin d = sin (2 * PI * (IZR d + 1 + 1 / 1000000) / 7)
      /\ weekday_cos d = cos (2 * PI * (IZR d + 1 + 1 / 1000000) / 7)
      /\ weekday_sin d * weekday_sin d + weekday_cos d * weekday_cos d = 1)
  /\ euclidean_distance (weekday_encoding 6) (weekday_encoding 0)
     < euclidean_distance (weekday_encoding 3) (weekday_encoding 0).
Proof.
  split.
  - intros d. unfold weekday_sin, weekday_cos, get_cycled_feature_value_sin,
      get_cycled_feature_value_cos.
    replace (2 * PI * ((IZR d + 1 + 0.000001) / 7))
      with (2 * PI * (IZR d + 1 + 1 / 1000000) / 7) by (field_simplify; lra).
    repeat split.
    pose proof (sin2_cos2 (2 * PI * (IZR d + 1 + 1 / 1000000) / 7)) as H.
    unfold Rsqr in H. exact H.
  - unfold euclidean_distance, weekday_encoding, weekday_sin, weekday_cos,
      get_cycled_feature_value_sin, get_cycled_feature_value_cos.
    cbn [fst snd]. rewrite !unit_circle_distance.
    replace (2 * PI * ((6 + 1 + 0.000001) / 7) - 2 * PI * ((0 + 1 + 0.000001) / 7))
      with (12 * PI / 7) by field.
    replace (2 * PI * ((3 + 1 + 0.000001) / 7) - 2 * PI * ((0 + 1 + 0.000001) / 7))
      with (6 * PI / 7) by field.
    pose proof cos_six_sevenths_neg. pose proof cos_twelve_sevenths_pos.
    pose proof (COS_bound (12 * PI / 7)) as [_ Hb].
    apply sqrt_lt_1; lra.
Qed.

End Cyclical.

(** ** Sessions, windows and day index *)

Section Sessions.
Import Frame ETL.
Open Scope Z_scope.

Lemma event_time_leb_total a b :
  event_time_leb a b = true \/ event_time_leb b a = true.
Proof. unfold event_time_leb. rewrite !Z.leb_le. lia. Qed.

Lemma event_time_leb_trans a b c :
  event_time_leb a b = true -> event_time_leb b c = true ->
  event_time_leb a c = true.
Proof. unfold event_time_leb. rewrite !Z.leb_le. lia. Qed.

Lemma Zleb_total a b : (a <=? b) = true \/ (b <=? a) = true.
Proof. rewrite !Z.leb_le. lia. Qed.

Lemma Zleb_trans a b c : (a <=? b) = true -> (b <=? c) = true -> (a <=? c) = true.
Proof. rewrite !Z.leb_le. lia. Qed.

(** The rows that [Groupby] collects for a session are the session in
    the order of the event times. *)
Lemma group_rows df s :
  filter (fun r => user_session r =? s) (sort_values event_time_leb df)
  = session_sequence df s.
Proof.
  unfold session_sequence.
  apply filter_sort_values; [apply event_time_leb_total|apply event_time_leb_trans].
Qed.

Lemma session_sequence_In df s r :
  In r (session_sequence df s) <-> In r df /\ user_session r = s.
Proof.
  unfold session_sequence. rewrite sort_values_In, filter_In, Z.eqb_eq. tauto.
Qed.

Lemma session_sequence_length df s :
  List.length (session_sequence df s)
  = List.length (filter (fun r => user_session r =? s) df).
Proof. apply sort_values_length. Qed.

Lemma groupby_keys_In df s :
  In s (groupby_keys df) <-> exists r, In r df /\ user_session r = s.
Proof.
  unfold groupby_keys. rewrite sort_values_In, nodup_In, in_map_iff.
  split; intros (r & H1 & H2); exists r; tauto.
Qed.

Lemma groupby_keys_NoDup df : NoDup (groupby_keys df).
Proof.
  unfold groupby_keys. eapply Permutation_NoDup; [apply sort_values_perm|].
  apply NoDup_nodup.
Qed.

Lemma Groupby_sessions df :
  Groupby df = map (session_of df) (groupby_keys df).
Proof.
  unfold Groupby. apply map_ext. intros s. unfold session_of.
  now rewrite group_rows.
Qed.

Lemma zip_with_map_r {A B C : Type} (f : A -> B -> C) (h : A -> B) l :
  zip_with f l (map h l) = map (fun x => f x (h x)) l.
Proof. induction l as [|x l IH]; cbn; [reflexivity|now rewrite IH]. Qed.

Lemma selected_features_records sessions :
  selected_features sessions =
  map (record_of (column_min (map event_time_dt_first sessions))) sessions.
Proof.
  unfold selected_features, day_index. rewrite map_map, zip_with_map_r.
  reflexivity.
Qed.

(** [ListSlice(0, 20, pad=True)] is the padded window. *)
Lemma ListSlice_window {A : Type} (z : A) (l : list A) :
  Nvt.ListSlice 0 SESSIONS_MAX_LENGTH true z l = padded_window z l.
Proof.
  unfold Nvt.ListSlice, padded_window, SESSIONS_MAX_LENGTH.
  cbn [skipn andb]. rewrite Nat.sub_0_r, length_firstn.
  destruct (Nat.ltb_spec (Nat.min 20 (List.length l)) 20) as [Hlt|Hge].
  - rewrite (Nat.min_comm 20). rewrite Nat.min_l by lia.
    rewrite firstn_all, firstn_all2 by lia. reflexivity.
  - rewrite (Nat.min_comm (List.length l)). rewrite Nat.min_l by lia.
    cbn [Nat.sub repeat]. now rewrite app_nil_r.
Qed.

Lemma padded_window_length {A : Type} (z : A) (l : list A) :
  List.length (padded_window z l) = 20%nat.
Proof.
  unfold padded_window. rewrite length_app, length_firstn, repeat_length. lia.
Qed.

(** The records of the workflow: one per session with at least two
    interactions. *)
Lemma workflow_transform_In df rec :
  In rec (workflow_transform df) <->
  exists s, In s (groupby_keys df)
            /\ rec = record_of (column_min (map event_time_dt_first (Groupby df)))
                               (session_of df s)
            /\ (2 <= List.length (session_sequence df s))%nat.
Proof.
  unfold workflow_transform, filtered_sessions, groupby_features.
  rewrite selected_features_records, filter_In.
  set (first_day := column_min (map event_time_dt_first (Groupby df))).
  rewrite Groupby_sessions, in_map_iff. split.
  - intros [(g & <- & Hg) Hc]. apply in_map_iff in Hg as (s & <- & Hs).
    exists s. split; [exact Hs|]. split; [reflexivity|].
    cbn in Hc. unfold MINIMUM_SESSION_LENGTH in Hc. apply Z.leb_le in Hc.
    rewrite length_map in Hc. lia.
  - intros (s & Hs & -> & Hc). split.
    + exists (session_of df s). split; [reflexivity|]. now apply in_map.
    + cbn. unfold MINIMUM_SESSION_LENGTH. apply Z.leb_le.
      rewrite length_map. lia.
Qed.

Lemma filter_map_comm {A B : Type} (p : B -> bool) (f : A -> B) l :
  filter p (map f l) = map f (filter (fun x => p (f x)) l).
Proof.
  induction l as [|x l IH]; cbn; [reflexivity|].
  destruct (p (f x)); cbn; now rewrite IH.
Qed.

Lemma filter_perm {A : Type} (p : A -> bool) l l' :
  Permutation l l' -> Permutation (filter p l) (filter p l').
Proof.
  induction 1 as [|x l l' _ IH|x y l|l l' l'' _ IH1 _ IH2]; cbn.
  - constructor.
  - destruct (p x); [now constructor|exact IH].
  - destruct (p x), (p y); try apply Permutation_refl. apply perm_swap.
  - eapply perm_trans; eauto.
Qed.

Lemma workflow_transform_keys df :
  workflow_transform df =
  map (fun s => record_of (column_min (map event_time_dt_first (Groupby df)))
                          (session_of df s))
      (filter (long_enough df) (groupby_keys df)).
Proof.
  unfold workflow_transform, filtered_sessions, groupby_features.
  rewrite selected_features_records.
  set (first_day := column_min (map event_time_dt_first (Groupby df))).
  rewrite Groupby_sessions, map_map, filter_map_comm.
  f_equal. apply filter_ext. intros s. unfold long_enough. cbn.
  now rewrite length_map.
Qed.

Lemma workflow_transform_sessions df :
  map out_user_session (workflow_transform df)
  = filter (long_enough df) (groupby_keys df).
Proof. rewrite workflow_transform_keys, map_map. cbn. apply map_id. Qed.

Lemma session_sequence_sorted df s :
  StronglySorted (fun a b => event_time_ts a <= event_time_ts b)
                 (session_sequence df s).
Proof.
  unfold session_sequence.
  pose proof (sort_values_sorted event_time_leb event_time_leb_total
                event_time_leb_trans
                (filter (fun r => user_session r =? s) df)) as H.
  induction H as [|x l Hs IH Hx]; constructor; [exact IH|].
  eapply Forall_impl; [|exact Hx]. intros y Hy. now apply Z.leb_le.
Qed.

(** C1. Every record of the output belongs to a session with at least
    two interactions; its count is the number of interactions of the
    session, and each of its lists is made of the first min(count, 20)
    entries of the session's sequence in the order of the event times,
    followed by zeros up to the length 20.  Every session with at least
    two interactions has its record, exactly one, and a shorter session
    has none.  For three sessions with 1, 5 and 25 interactions this
    gives two records: the lists of the second are its 5 entries and 15
    zeros, those of the third its first 20 entries. *)
Theorem sequence_windower_contract (df : list Row) :
  let out := workflow_transform df in
  (forall rec, In rec out ->
     let seq := session_sequence df (out_user_session rec) in
     (2 <= List.length seq)%nat
     /\ out_product_id_count rec = Z.of_nat (List.length seq)
     /\ (forall c, cat_list_seq rec c = padded_window 0 (map (fun r => cat r c) seq)
                   /\ List.length (cat_list_seq rec c) = 20%nat)
     /\ (forall c, cont_list_seq rec c = padded_window 0%Q (map (fun r => cont r c) seq)
                   /\ List.length (cont_list_seq rec c) = 20%nat))
  /\ (forall s, StronglySorted (fun a b => event_time_ts a <= event_time_ts b)
                               (session_sequence df s)
                /\ Permutation (filter (fun r => user_session r =? s) df)
                               (session_sequence df s))
  /\ (forall s, (2 <= List.length (session_sequence df s))%nat ->
                exists rec, In rec out /\ out_user_session rec = s)
  /\ (forall s, (List.length (session_sequence df s) < 2)%nat ->
                forall rec, In rec out -> out_user_session rec <> s)
  /\ NoDup (map out_user_session out)
  /\ (forall s1 s5 s25,
        (forall r, In r df -> In (user_session r) [s1; s5; s25]) ->
        List.length (session_sequence df s1) = 1%nat ->
        List.length (session_sequence df s5) = 5%nat ->
        List.length (session_sequence df s25) = 25%nat ->
        List.length out = 2%nat
        /\ (forall rec, In rec out -> out_user_session rec = s5 ->
              (forall c, cat_list_seq rec c
                         = map (fun r => cat r c) (session_sequence df s5)
                           ++ repeat 0 15)
              /\ (forall c, cont_list_seq rec c
                            = map (fun r => cont r c) (session_sequence df s5)
                              ++ repeat 0%Q 15))
        /\ (forall rec, In rec out -> out_user_session rec = s25 ->
              (forall c, cat_list_seq rec c
                         = firstn 20 (map (fun r => cat r c) (session_sequence df s25)))
              /\ (forall c, cont_list_seq rec c
                            = firstn 20 (map (fun r => cont r c)
                                             (session_sequence df s25))))).
Proof.
  intros out.
  assert (Hrec : forall rec, In rec out ->
     let seq := session_sequence df (out_user_session rec) in
     (2 <= List.length seq)%nat
     /\ out_product_id_count rec = Z.of_nat (List.length seq)
     /\ (forall c, cat_list_seq rec c = padded_window 0 (map (fun r => cat r c) seq)
                   /\ List.length (cat_list_seq rec c) = 20%nat)
     /\ (forall c, cont_list_seq rec c = padded_window 0%Q (map (fun r => cont r c) seq)
                   /\ List.length (cont_list_seq rec c) = 20%nat)).
  { intros rec Hin. apply workflow_transform_In in Hin as (s & Hs & -> & Hc).
    cbn. split; [exact Hc|]. split; [now rewrite length_map|].
    unfold groupby_features_trim_cat, groupby_features_trim_cont.
    split; intros c; rewrite ListSlice_window;
      (split; [reflexivity|apply padded_window_length]). }
  split; [exact Hrec|]. split.
  { intros s. split; [apply session_sequence_sorted|].
    unfold session_sequence. apply sort_values_perm. }
  assert (Hex : forall s, (2 <= List.length (session_sequence df s))%nat ->
                exists rec, In rec out /\ out_user_session rec = s).
  { intros s Hc.
    assert (Hs : In s (groupby_keys df)).
    { apply groupby_keys_In.
      destruct (session_sequence df s) as [|r l] eqn:E; [cbn in Hc; lia|].
      exists r. apply session_sequence_In. rewrite E. now left. }
    eexists. split; [apply workflow_transform_In; exists s; eauto|reflexivity]. }
  split; [exact Hex|]. split.
  { intros s Hlt rec Hin Heq. destruct (Hrec rec Hin) as [Hc _].
    cbn in Hc. rewrite Heq in Hc. lia. }
  split.
  { unfold out. rewrite workflow_transform_sessions.
    apply NoDup_filter, groupby_keys_NoDup. }
  intros s1 s5 s25 Hall H1 H5 H25.
  split; [|split].
  - unfold out. rewrite <- (length_map out_user_session),
      workflow_transform_sessions.
    assert (Hp : Permutation (groupby_keys df) [s1; s5; s25]).
    { apply NoDup_Permutation; [apply groupby_keys_NoDup| |].
      - repeat constructor; cbn; intros H;
          repeat (destruct H as [H|H]; [congruence|]); exact H.
      - intros s. rewrite groupby_keys_In. split.
        + intros (r & Hr & <-). now apply Hall.
        + intros Hs.
          assert (Hne : session_sequence df s <> []).
          { destruct Hs as [<-|[<-|[<-|[]]]]; intros E;
              rewrite E in *; discriminate. }
          destruct (session_sequence df s) as [|r l] eqn:E; [congruence|].
          exists r. apply session_sequence_In. rewrite E. now left. }
    rewrite (Permutation_length (filter_perm (long_enough df) Hp)).
    cbn [filter]. unfold long_enough, MINIMUM_SESSION_LENGTH.
    rewrite H1, H5, H25. reflexivity.
  - intros rec Hin Hs. destruct (Hrec rec Hin) as (_ & _ & Hcat & Hcont).
    cbn in Hcat, Hcont. rewrite Hs in Hcat, Hcont.
    split; intros c; [destruct (Hcat c) as [-> _]|destruct (Hcont c) as [-> _]];
      unfold padded_window; rewrite length_map, H5; cbn [Nat.min Nat.sub];
      rewrite firstn_all2 by (rewrite length_map; lia); reflexivity.
  - intros rec Hin Hs. destruct (Hrec rec Hin) as (_ & _ & Hcat & Hcont).
    cbn in Hcat, Hcont. rewrite Hs in Hcat, Hcont.
    split; intros c; [destruct (Hcat c) as [-> _]|destruct (Hcont c) as [-> _]];
      unfold padded_window; rewrite length_map, H25; cbn [Nat.min Nat.sub repeat];
      apply app_nil_r.
Qed.

(** C8. For every session identifier of the input the aggregator has a
    row; its count is the number of interactions of the session and
    every list it collects has that length.  The lists of one output
    record all have the same length too. *)
Theorem aggregator_length_invariant (df : list Row) :
  (forall s, (exists r, In r df /\ user_session r = s) ->
             exists g, In g (groupby_features df) /\ g_user_session g = s)
  /\ (forall g, In g (groupby_features df) ->
        let n := List.length (filter (fun r => user_session r =? g_user_session g) df) in
        product_id_count g = Z.of_nat n
        /\ (forall c, List.length (cat_list g c) = n)
        /\ (forall c, List.length (cont_list g c) = n))
  /\ (forall rec, In rec (workflow_transform df) ->
        forall c1 c2 c3 c4,
          List.length (cat_list_seq rec c1) = List.length (cat_list_seq rec c2)
          /\ List.length (cat_list_seq rec c1) = List.length (cont_list_seq rec c3)
          /\ List.length (cont_list_seq rec c3) = List.length (cont_list_seq rec c4)).
Proof.
  unfold groupby_features. rewrite Groupby_sessions. split; [|split].
  - intros s Hs. exists (session_of df s). split; [|reflexivity].
    apply in_map. now apply groupby_keys_In.
  - intros g Hg. apply in_map_iff in Hg as (s & <- & _). cbn.
    rewrite <- session_sequence_length.
    repeat split; intros; now rewrite length_map.
  - intros rec Hin c1 c2 c3 c4.
    apply workflow_transform_In in Hin as (s & _ & -> & _). cbn.
    unfold groupby_features_trim_cat, groupby_features_trim_cont.
    rewrite !ListSlice_window, !padded_window_length. auto.
Qed.

Lemma column_min_fold d col :
  fold_right Z.min d col <= d
  /\ (forall x, In x col -> fold_right Z.min d col <= x)
  /\ In (fold_right Z.min d col) (d :: col).
Proof.
  induction col as [|y col (IH1 & IH2 & IH3)]; cbn [fold_right].
  - split; [lia|]. split; [intros x []|now left].
  - split; [lia|]. split.
    + intros x [<-|Hx]; [lia|]. specialize (IH2 x Hx). lia.
    + destruct (Z.min_spec y (fold_right Z.min d col)) as [[_ ->]|[_ ->]].
      * right. now left.
      * destruct IH3 as [H|H]; [now left|right; now right].
Qed.

Lemma column_min_spec col :
  col <> [] ->
  In (column_min col) col /\ (forall x, In x col -> column_min col <= x).
Proof.
  intros Hne. unfold column_min. destruct col as [|d col]; [congruence|].
  cbn [hd]. destruct (column_min_fold d (d :: col)) as (H1 & H2 & H3).
  split; [|exact H2]. destruct H3 as [H|H]; [rewrite <- H; now left|exact H].
Qed.

(** The head of a session's sequence is its first event. *)
Lemma session_first_event df s :
  In s (groupby_keys df) ->
  is_session_start df s (event_time_dt_first (session_of df s)).
Proof.
  intros Hs. cbn. pose proof (session_sequence_sorted df s) as Hsorted.
  pose proof (session_sequence_In df s) as Hin.
  destruct (session_sequence df s) as [|x l].
  - exfalso. apply groupby_keys_In in Hs as (r & Hr & Hrs).
    apply (proj2 (Hin r)). auto.
  - cbn [map hd]. split.
    + exists x. destruct (proj1 (Hin x) (or_introl eq_refl)). auto.
    + intros r Hr Hrs. destruct (proj2 (Hin r) (conj Hr Hrs)) as [<-|Hl]; [lia|].
      inversion Hsorted as [|? ? _ Hall]; subst.
      rewrite Forall_forall in Hall. now apply Hall.
Qed.

Lemma is_session_start_unique df s t t' :
  is_session_start df s t -> is_session_start df s t' -> t = t'.
Proof.
  intros [(r & Hr & Hs & Ht) Hle] [(r' & Hr' & Hs' & Ht') Hle'].
  specialize (Hle r' Hr' Hs'). specialize (Hle' r Hr Hs). lia.
Qed.

Lemma first_day_least df :
  groupby_keys df <> [] ->
  is_first_day df (column_min (map event_time_dt_first (Groupby df))).
Proof.
  intros Hne. rewrite Groupby_sessions, map_map.
  set (col := map (fun s => event_time_dt_first (session_of df s)) (groupby_keys df)).
  assert (Hcol : col <> []).
  { unfold col. destruct (groupby_keys df); [congruence|discriminate]. }
  destruct (column_min_spec Hcol) as [Hin Hle]. split.
  - apply in_map_iff in Hin as (s & Hs & Hk). exists s.
    rewrite <- Hs. now apply session_first_event.
  - intros s t Hst. apply Hle.
    assert (Hs : In s (groupby_keys df)).
    { apply groupby_keys_In. destruct Hst as [(r & Hr & Hrs & _) _]. eauto. }
    pose proof (session_first_event df s Hs) as Hst'.
    rewrite (is_session_start_unique Hst Hst'). unfold col.
    apply in_map_iff. eauto.
Qed.

Lemma same_day_index start first_day :
  first_day <= start -> start / 86400 = first_day / 86400 ->
  dt_days (start - first_day) + 1 = 1.
Proof.
  intros Hle Hday. unfold dt_days.
  pose proof (Z.div_mod start 86400). pose proof (Z.div_mod first_day 86400).
  pose proof (Z.mod_pos_bound start 86400). pose proof (Z.mod_pos_bound first_day 86400).
  rewrite Z.div_small; lia.
Qed.

Lemma day_index_dates start first_day :
  first_day <= start ->
  event_date start - event_date first_day
  <= dt_days (start - first_day) + 1
  <= event_date start - event_date first_day + 1
  /\ (first_day mod 86400 <= start mod 86400 ->
      dt_days (start - first_day) + 1
      = event_date start - event_date first_day + 1).
Proof.
  intros Hle. unfold dt_days, event_date.
  pose proof (Z.div_mod start 86400 ltac:(lia)) as Ha.
  pose proof (Z.div_mod first_day 86400 ltac:(lia)) as Hb.
  pose proof (Z.mod_pos_bound start 86400 ltac:(lia)) as Hra.
  pose proof (Z.mod_pos_bound first_day 86400 ltac:(lia)) as Hrb.
  set (qa := start / 86400) in *. set (qb := first_day / 86400) in *.
  set (ra := start mod 86400) in *. set (rb := first_day mod 86400) in *.
  assert (E : start - first_day = (qa - qb) * 86400 + (ra - rb)) by lia.
  split.
  - assert (H1 : qa - qb - 1 <= (start - first_day) / 86400)
      by (apply Z.div_le_lower_bound; lia).
    assert (H2 : (start - first_day) / 86400 < qa - qb + 1)
      by (apply Z.div_lt_upper_bound; lia).
    lia.
  - intros Hr. rewrite E, Z.div_add_l by lia.
    rewrite Z.div_small by lia. lia.
Qed.

(** C4, as amended. The day index of a session is the number of whole
    days of 86400 seconds between the time of its first event and the
    least such time over all sessions, plus one.  It is the difference
    of the two calendar dates, or that difference plus one; it is the
    difference plus one whenever the time of day of the session's start
    is not earlier than that of the earliest start, as when the
    earliest start is at midnight.  A session that starts on the same
    calendar date as the earliest first event has index 1, a session
    that starts exactly six days (6 x 86400 seconds) after it has
    index 7. *)
Theorem day_index_computation (df : list Row) :
  (forall rec, In rec (workflow_transform df) ->
               In rec (selected_features (groupby_features df)))
  /\ forall rec, In rec (selected_features (groupby_features df)) ->
       exists start first_day,
         is_session_start df (out_user_session rec) start
         /\ is_first_day df first_day
         /\ first_day <= start
         /\ out_day_index rec = (start - first_day) / 86400 + 1
         /\ (start / 86400 = first_day / 86400 -> out_day_index rec = 1)
         /\ (start = first_day + 6 * 86400 -> out_day_index rec = 7)
         /\ (event_date start - event_date first_day
             <= out_day_index rec
             <= event_date start - event_date first_day + 1)
         /\ (first_day mod 86400 <= start mod 86400 ->
             out_day_index rec = event_date start - event_date first_day + 1).
Proof.
  split.
  - intros rec Hin. unfold workflow_transform, filtered_sessions in Hin.
    now apply filter_In in Hin.
  - intros rec Hin. unfold groupby_features in Hin.
    rewrite selected_features_records in Hin.
    apply in_map_iff in Hin as (g & <- & Hg).
    assert (Hne : groupby_keys df <> []).
    { rewrite Groupby_sessions in Hg. intros E. rewrite E in Hg. destruct Hg. }
    pose proof (@first_day_least df Hne) as Hfirst.
    set (first_day := column_min (map event_time_dt_first (Groupby df))) in *.
    rewrite Groupby_sessions in Hg. apply in_map_iff in Hg as (s & <- & Hs).
    pose proof (session_first_event df s Hs) as Hstart.
    set (start := event_time_dt_first (session_of df s)) in *.
    exists start, first_day.
    assert (Hle : first_day <= start) by (destruct Hfirst as [_ H]; eapply H; eauto).
    split; [exact Hstart|]. split; [exact Hfirst|]. split; [exact Hle|].
    change (out_day_index (record_of first_day (session_of df s)))
      with (dt_days (start - first_day) + 1).
    split; [reflexivity|]. split; [|split].
    + intros Hday. now apply same_day_index.
    + intros ->. unfold dt_days.
      replace (first_day + 6 * 86400 - first_day) with (6 * 86400) by lia.
      rewrite Z.div_mul by lia. reflexivity.
    + exact (day_index_dates Hle).
Qed.

Lemma two_sessions_starts (t1 t2 : Z) :
  t1 <= t2 ->
  let df := [interaction 1 t1 9; interaction 2 t2 9] in
  is_session_start df 2 t2 /\ is_first_day df t1.
Proof.
  intros Hle df.
  assert (H1 : is_session_start df 1 t1).
  { split.
    - exists (interaction 1 t1 9). split; [now left|split; reflexivity].
    - intros r [<-|[<-|[]]]; cbn; intros; [lia|discriminate]. }
  assert (H2 : is_session_start df 2 t2).
  { split.
    - exists (interaction 2 t2 9). split; [right; now left|split; reflexivity].
    - intros r [<-|[<-|[]]]; cbn; intros; [discriminate|lia]. }
  split; [exact H2|]. split; [exists 1; exact H1|].
  intros s t [(r & Hr & _ & <-) _].
  destruct Hr as [<-|[<-|[]]]; cbn; lia.
Qed.

(** C4 as it is worded fails on dates.  A session that starts at 01:00
    of the day after an earliest start at 23:00 is one date later but
    has the index 1, not 2; a session that starts at 01:00 six dates
    after it has the index 6, not 7. *)
Lemma day_index_by_dates_counterexample :
  ~ day_index_by_dates next_date_frame
  /\ ~ day_index_by_dates six_dates_frame.
Proof.
  split.
  - intros H.
    destruct (@two_sessions_starts 82800 90000 ltac:(lia)) as [Hs Hf].
    set (rec := nth 1 (selected_features (groupby_features next_date_frame))
                    (record_of 0 (session_of next_date_frame 0))).
    assert (Hin : In rec (selected_features (groupby_features next_date_frame)))
      by (apply nth_In; vm_compute; lia).
    specialize (H rec 90000 82800 Hin Hs Hf). vm_compute in H. discriminate H.
  - intros H.
    destruct (@two_sessions_starts 82800 (6 * 86400 + 3600) ltac:(lia)) as [Hs Hf].
    set (rec := nth 1 (selected_features (groupby_features six_dates_frame))
                    (record_of 0 (session_of six_dates_frame 0))).
    assert (Hin : In rec (selected_features (groupby_features six_dates_frame)))
      by (apply nth_In; vm_compute; lia).
    specialize (H rec (6 * 86400 + 3600) 82800 Hin Hs Hf).
    vm_compute in H. discriminate H.
Qed.

Example day_index_of_dates :
  map out_day_index (selected_features (groupby_features next_date_frame)) = [1; 1]
  /\ map out_day_index (selected_features (groupby_features six_dates_frame)) = [1; 6]
  /\ event_date 90000 - event_date 82800 + 1 = 2
  /\ event_date (6 * 86400 + 3600) - event_date 82800 + 1 = 7.
Proof. vm_compute. repeat split. Qed.

Example sample_frame_sessions :
  map out_user_session (workflow_transform sample_frame) = [2; 3]
  /\ map out_product_id_count (workflow_transform sample_frame) = [5; 25]
  /\ map out_day_index (workflow_transform sample_frame) = [7; 1].
Proof. vm_compute. repeat split. Qed.

Example sample_frame_items :
  map (fun rec => cat_list_seq rec product_id) (workflow_transform sample_frame)
  = [[10; 11; 12; 13; 14; 0; 0; 0; 0; 0; 0; 0; 0; 0; 0; 0; 0; 0; 0; 0];
     [20; 21; 22; 23; 24; 25; 26; 27; 28; 29;
      30; 31; 32; 33; 34; 35; 36; 37; 38; 39]].
Proof. vm_compute. reflexivity. Qed.

Lemma sample_frame_ids r :
  In r sample_frame -> In (user_session r) [1; 2; 3].
Proof.
  unfold sample_frame. cbn [seq map app]. intros H.
  repeat (destruct H as [<-|H]; [cbn; tauto|]). destruct H.
Defined.

Lemma sequence_windower_contract_witness :
  List.length (session_sequence sample_frame 1) = 1%nat
  /\ List.length (session_sequence sample_frame 2) = 5%nat
  /\ List.length (session_sequence sample_frame 3) = 25%nat
  /\ List.length (workflow_transform sample_frame) = 2%nat.
Proof.
  assert (H1 : List.length (session_sequence sample_frame 1) = 1%nat) by reflexivity.
  assert (H5 : List.length (session_sequence sample_frame 2) = 5%nat) by reflexivity.
  assert (H25 : List.length (session_sequence sample_frame 3) = 25%nat) by reflexivity.
  split; [exact H1|]. split; [exact H5|]. split; [exact H25|].
  destruct (sequence_windower_contract sample_frame) as (_ & _ & _ & _ & _ & Hscen).
  exact (proj1 (Hscen 1 2 3 sample_frame_ids H1 H5 H25)).
Defined.

Lemma aggregator_length_invariant_witness :
  In (session_of sample_frame 2) (groupby_features sample_frame)
  /\ product_id_count (session_of sample_frame 2) = 5.
Proof.
  assert (Hin : In (session_of sample_frame 2) (groupby_features sample_frame)).
  { unfold groupby_features. rewrite Groupby_sessions.
    apply in_map. vm_compute. tauto. }
  split; [exact Hin|].
  destruct (aggregator_length_invariant sample_frame) as (_ & Hlen & _).
  destruct (Hlen _ Hin) as [Hcount _]. exact Hcount.
Defined.

Lemma day_index_computation_witness :
  exists rec start first_day,
    In rec (selected_features (groupby_features sample_frame))
    /\ is_session_start sample_frame (out_user_session rec) start
    /\ is_first_day sample_frame first_day
    /\ out_day_index rec = (start - first_day) / 86400 + 1.
Proof.
  set (rec := nth 1 (selected_features (groupby_features sample_frame))
                  (record_of 0 (session_of sample_frame 0))).
  assert (Hin : In rec (selected_features (groupby_features sample_frame))).
  { apply nth_In. vm_compute. lia. }
  destruct (proj2 (day_index_computation sample_frame) rec Hin)
    as (start & first_day & Hs & Hf & _ & Hd & _).
  exists rec, start, first_day. auto.
Defined.

End Sessions.

(** ** Relative price *)

Section RelativePrice.
Import ETL.
Open Scope float_scope.

Example relative_price_positive_mean :
  relative_price_to_avg_categ 2 1 = (1 - 2) / (2 + epsilon).
Proof. vm_compute. reflexivity. Qed.

Example relative_price_zero_mean :
  relative_price_to_avg_categ 0 1 = 0.
Proof. vm_compute. reflexivity. Qed.

Example relative_price_negative_mean :
  (relative_price_to_avg_categ (-2) 1 =? 0) = true.
Proof. vm_compute. reflexivity. Qed.

(** C6 at the mean price [-epsilon]: the mean is not positive, the
    divisor [col + epsilon] is zero, the quotient is infinite and its
    product with the mask 0 is not a number instead of 0. *)
Theorem relative_price_division_by_zero :
  let col := - epsilon in
  (col <=? 0) = true
  /\ (col + epsilon =? 0) = true
  /\ (1 - col) / (col + epsilon) = infinity
  /\ astype_int (0 <? col) = 0
  /\ is_nan (relative_price_to_avg_categ col 1) = true
  /\ (relative_price_to_avg_categ col 1 =? 0) = false.
Proof. vm_compute. repeat split. Qed.

End RelativePrice.

(** ** The pipeline on the sample data *)

Section Samples.
Import Frame Preproc.
Open Scope Z_scope.

(** The interactions loaded from a raw file carry session identifiers
    that [remove_consecutive_repeats] can tell from its fill value. *)
Lemma load_interactions_valid parse_event_time raw_df df :
  load_interactions parse_event_time raw_df = inr df -> valid_session_ids df.
Proof.
  unfold load_interactions.
  destruct (astype_datetime parse_event_time (map raw_event_time raw_df))
    as [e|tss]; [discriminate|].
  intros H; inversion H; subst df. clear H.
  unfold valid_session_ids, categorify_user_session. apply Forall_forall.
  intros row Hrow. apply zip_with_In in Hrow as (x & code & _ & Hcode & ->).
  cbn [user_session].
  apply (categorify_default_positive string_dec) in Hcode; [exact Hcode|].
  apply Forall_forall. intros v Hv. apply in_map_iff in Hv as (y & <- & Hy).
  unfold drop_null_sessions in Hy. apply filter_In in Hy as [_ Hy].
  destruct (raw_user_session (fst y)); [discriminate|discriminate].
Qed.

Example sample_brands_codes :
  ETL.cat_feats string_dec ETL.sample_brands = [3; 1; 2; 3]
  /\ Nvt.cardinality string_dec ETL.sample_brands = 3.
Proof. vm_compute. split; reflexivity. Qed.

Lemma categorify_bijection_witness :
  Nvt.observed ETL.sample_brands (Some "bolt"%string)
  /\ 1 <= Nvt.encode string_dec 1 (Nvt.categories string_dec ETL.sample_brands)
                     (Some "bolt"%string)
       <= Nvt.cardinality string_dec ETL.sample_brands.
Proof.
  assert (Hobs : Nvt.observed ETL.sample_brands (Some "bolt"%string))
    by (right; right; right; left; reflexivity).
  split; [exact Hobs|].
  destruct (categorify_bijection string_dec ETL.sample_brands)
    as (_ & _ & Hrange & _).
  exact (Hrange _ Hobs).
Defined.

Lemma recency_derivation_witness :
  In (view 7 40 1, Some 5) (add_first_seen sample_log)
  /\ (0 <= ETL.ItemRecency_transform 40 5)%Q
  /\ (ETL.ItemRecency_transform 10 86410 ==
      Qmax 0 ((inject_Z 10 - inject_Z 86410) / 86400))%Q
  /\ (0 <= ETL.ItemRecency_transform 10 86410)%Q.
Proof.
  assert (Hin : In (view 7 40 1, Some 5) (add_first_seen sample_log))
    by (right; left; reflexivity).
  split; [exact Hin|].
  destruct (recency_derivation sample_log) as (Hmax & _ & Hrows).
  split.
  - destruct (Hrows _ _ Hin) as (first & Ho & _ & _ & _ & Hpos).
    inversion Ho; subst first. exact Hpos.
  - destruct (Hmax 10 86410) as [Heq Hpos]. split; [exact Heq|exact Hpos].
Defined.

Example sample_raw_aborts :
  load_interactions sample_parse sample_raw = inl MalformedTimestamp.
Proof. reflexivity. Qed.

Example sample_raw_first_row_loads :
  load_interactions sample_parse (firstn 1 sample_raw)
  = inr [view 7 1569888000 1].
Proof. reflexivity. Qed.

Lemma malformed_timestamp_aborts_run_witness :
  (exists r, In r sample_raw /\ sample_parse (raw_event_time r) = None)
  /\ load_interactions sample_parse sample_raw = inl MalformedTimestamp.
Proof.
  assert (Hbad : exists r, In r sample_raw /\ sample_parse (raw_event_time r) = None).
  { exists (raw_view "yesterday"). split; [right; left; reflexivity|reflexivity]. }
  split; [exact Hbad|].
  exact (proj1 (malformed_timestamp_aborts_run sample_parse sample_raw) Hbad).
Defined.

End Samples.

(** * Further properties of the notebooks *)

(** ** Loading the interaction log *)

Section EncodeFacts.
Import Nvt.
Open Scope Z_scope.

Context {K : Type}.
Variable eq_dec : forall x y : K, {x = y} + {x <> y}.

(** Whatever the start index, two observed values with the same code
    are the same value. *)
Lemma encode_injective start_index (col : list (option K)) v w :
  observed col v -> observed col w ->
  encode eq_dec start_index (categories eq_dec col) v
  = encode eq_dec start_index (categories eq_dec col) w ->
  v = w.
Proof.
  intros Hv Hw Heq.
  destruct (encode_observed eq_dec start_index Hv)
    as [[Hvn Ev]|(x & i & Hvx & Hx & Ev)];
    destruct (encode_observed eq_dec start_index Hw)
      as [[Hwn Ew]|(y & j & Hwy & Hy & Ew)];
    rewrite Ev, Ew in Heq; subst v w; try reflexivity; try lia.
  assert (i = j) by lia. subst j. congruence.
Qed.

End EncodeFacts.

Section LoadFacts.
Import Frame Preproc.
Open Scope Z_scope.

Variable parse_event_time : string -> option Z.

Lemma Forall2_nth {A B : Type} (R : A -> B -> Prop) l l' :
  Forall2 R l l' ->
  forall k a b, nth_error l k = Some a -> nth_error l' k = Some b -> R a b.
Proof.
  induction 1 as [|x y l l' Hxy _ IH]; intros k a b Ha Hb.
  - destruct k; discriminate.
  - destruct k as [|k]; cbn in Ha, Hb.
    + inversion Ha; inversion Hb; subst. exact Hxy.
    + eapply IH; eauto.
Qed.

Lemma drop_null_sessions_rows (raw_df : list RawEvent) tss :
  Forall2 (fun s ts => parse_event_time s = Some ts) (map raw_event_time raw_df) tss ->
  Forall2 (fun r x => fst x = r /\ parse_event_time (raw_event_time r) = Some (snd x))
          (filter has_session raw_df)
          (drop_null_sessions (combine raw_df tss)).
Proof.
  revert tss; induction raw_df as [|r raw_df IH]; intros tss H.
  - inversion H; subst. constructor.
  - inversion H as [|? ts ? tss' Hr Hrest]; subst. cbn [combine].
    unfold drop_null_sessions in *. cbn [filter fst]. unfold has_session at 1.
    destruct (raw_user_session r); [|now apply IH].
    constructor; [split; [reflexivity|exact Hr]|now apply IH].
Qed.

(** The loaded frame, row by row. *)
Lemma categorify_user_session_rows (d : list (RawEvent * Z)) :
  categorify_user_session d =
  map (fun x => loaded_row x
         (Nvt.encode string_dec 0
            (Nvt.categories string_dec (map (fun r => raw_user_session (fst r)) d))
            (raw_user_session (fst x)))) d.
Proof.
  unfold categorify_user_session, Nvt.Categorify. rewrite map_map.
  symmetry. rewrite <- (zip_with_map_r loaded_row). reflexivity.
Qed.

(** X1. A raw file that loads gives one row for each of its rows with a
    session, in the same order: the rows without a session are left
    out, the time of a row is the parsed event time and the other
    columns are carried over. *)
Theorem load_interactions_rows (raw_df : list RawEvent) (df : list Interaction) :
  load_interactions parse_event_time raw_df = inr df ->
  Forall2 (fun r row =>
             raw_user_session r <> None
             /\ parse_event_time (raw_event_time r) = Some (event_time_ts row)
             /\ event_type row = raw_event_type r
             /\ product_id row = raw_product_id r
             /\ category_id row = raw_category_id r
             /\ category_code row = raw_category_code r
             /\ brand row = raw_brand r
             /\ price row = raw_price r
             /\ user_id row = raw_user_id r)
          (filter has_session raw_df) df.
Proof.
  unfold load_interactions.
  destruct (astype_datetime parse_event_time (map raw_event_time raw_df))
    as [e|tss] eqn:E; [discriminate|].
  intros H; inversion H; subst df. clear H.
  apply astype_datetime_inr in E. apply drop_null_sessions_rows in E.
  rewrite categorify_user_session_rows.
  set (code := Nvt.encode _ _ _). clearbody code.
  assert (Hs : Forall (fun r => raw_user_session r <> None) (filter has_session raw_df)).
  { apply Forall_forall. intros r Hr. apply filter_In in Hr as [_ Hr].
    unfold has_session in Hr. destruct (raw_user_session r); [discriminate|discriminate]. }
  revert Hs E. generalize (filter has_session raw_df).
  generalize (drop_null_sessions (combine raw_df tss)).
  intros d l Hs E.
  induction E as [|r x l l' [Hx Hp] _ IH]; [constructor|].
  inversion Hs; subst. cbn [map]. constructor; [|now apply IH].
  cbn. repeat split; auto.
Qed.

(** X2. Two loaded rows carry the same session code exactly when their
    raw rows carry the same session: the encoding keeps the sessions
    apart and together as they were. *)
Theorem load_interactions_sessions (raw_df : list RawEvent) (df : list Interaction) :
  load_interactions parse_event_time raw_df = inr df ->
  forall i j ri rj rowi rowj,
    nth_error (filter has_session raw_df) i = Some ri ->
    nth_error df i = Some rowi ->
    nth_error (filter has_session raw_df) j = Some rj ->
    nth_error df j = Some rowj ->
    (user_session rowi = user_session rowj
     <-> raw_user_session ri = raw_user_session rj).
Proof.
  unfold load_interactions.
  destruct (astype_datetime parse_event_time (map raw_event_time raw_df))
    as [e|tss] eqn:E; [discriminate|].
  intros H; inversion H; subst df. clear H.
  apply astype_datetime_inr in E. apply drop_null_sessions_rows in E.
  rewrite categorify_user_session_rows.
  set (d := drop_null_sessions (combine raw_df tss)) in *.
  set (col := map (fun r => raw_user_session (fst r)) d).
  intros i j ri rj rowi rowj Hri Hrowi Hrj Hrowj.
  assert (Hrow : forall k r row,
            nth_error (filter has_session raw_df) k = Some r ->
            nth_error (map (fun x => loaded_row x
                         (Nvt.encode string_dec 0 (Nvt.categories string_dec col)
                                     (raw_user_session (fst x)))) d) k = Some row ->
            user_session row
            = Nvt.encode string_dec 0 (Nvt.categories string_dec col) (raw_user_session r)
              /\ In (raw_user_session r) col).
  { intros k r row Hr Hk. rewrite nth_error_map in Hk.
    destruct (nth_error d k) as [x|] eqn:Hx; [|discriminate].
    cbn in Hk. inversion Hk; subst row. cbn [user_session loaded_row].
    assert (Hfst : fst x = r) by exact (proj1 (Forall2_nth E k Hr Hx)).
    rewrite Hfst. split; [reflexivity|].
    unfold col. rewrite <- Hfst.
    apply (in_map (fun r0 => raw_user_session (fst r0))).
    eapply nth_error_In; eauto. }
  destruct (Hrow i ri rowi Hri Hrowi) as [Ei Hi].
  destruct (Hrow j rj rowj Hrj Hrowj) as [Ej Hj].
  rewrite Ei, Ej. split.
  - apply encode_injective; right; assumption.
  - intros ->. reflexivity.
Qed.

End LoadFacts.

(** ** More on the removal of consecutive repetitions *)

Section DedupFacts.
Import Frame Preproc.
Open Scope Z_scope.

(** X3. The session codes of a loaded frame are positive, so none equals
    the value 0 that fills the shifted columns: whatever its item, the
    first row of the sorted frame is kept. *)
Theorem loaded_frame_first_row_kept parse_event_time raw_df df r :
  load_interactions parse_event_time raw_df = inr df ->
  nth_error (sort_session_time df) 0 = Some r ->
  valid_session_ids df /\ In (O, r) (remove_consecutive_repeats df).
Proof.
  intros Hload Hr. pose proof (load_interactions_valid _ _ Hload) as Hv.
  split; [exact Hv|]. apply (kept_iff O r Hv). split; [exact Hr|exact I].
Qed.

Lemma kept_rows_cons ds dp y l :
  boolean_mask (y :: l) (keep_from ds dp (y :: l)) =
  (if (user_session y =? ds) && (product_id y =? dp) then [] else [y])
  ++ boolean_mask l (keep_from (user_session y) (product_id y) l).
Proof.
  cbn [keep_from]. rewrite boolean_mask_cons.
  destruct ((user_session y =? ds) && (product_id y =? dp)); reflexivity.
Qed.

Lemma kept_rows_head l : forall ds dp x rest,
  boolean_mask l (keep_from ds dp l) = x :: rest ->
  (user_session x =? ds) && (product_id x =? dp) = false.
Proof.
  induction l as [|y l IH]; intros ds dp x rest H; [discriminate|].
  rewrite kept_rows_cons in H.
  destruct ((user_session y =? ds) && (product_id y =? dp)) eqn:E.
  - cbn [app] in H. apply IH in H.
    apply andb_true_iff in E as [E1 E2]. apply Z.eqb_eq in E1, E2.
    now rewrite <- E1, <- E2.
  - cbn [app] in H. inversion H; subst. exact E.
Qed.

Lemma kept_rows_In l : forall ds dp x,
  In x (boolean_mask l (keep_from ds dp l)) -> In x l.
Proof.
  induction l as [|y l IH]; intros ds dp x H; [destruct H|].
  rewrite kept_rows_cons in H. apply in_app_or in H as [H|H].
  - destruct ((user_session y =? ds) && (product_id y =? dp)); [destruct H|].
    destruct H as [<-|[]]. now left.
  - right. eapply IH; eauto.
Qed.

Lemma kept_rows_no_repeat l : forall ds dp i a b,
  nth_error (boolean_mask l (keep_from ds dp l)) i = Some a ->
  nth_error (boolean_mask l (keep_from ds dp l)) (S i) = Some b ->
  same_session_item a b = false.
Proof.
  induction l as [|y l IH]; intros ds dp i a b Ha Hb.
  - destruct i; discriminate.
  - rewrite kept_rows_cons in Ha, Hb.
    destruct ((user_session y =? ds) && (product_id y =? dp)); cbn [app] in Ha, Hb.
    + eapply IH; eauto.
    + destruct i as [|i]; cbn [nth_error] in Ha, Hb; [|eapply IH; eauto].
      inversion Ha; subst a.
      destruct (boolean_mask l (keep_from (user_session y) (product_id y) l))
        as [|x rest] eqn:E; [discriminate|].
      cbn in Hb. inversion Hb; subst x. apply kept_rows_head in E.
      unfold same_session_item.
      now rewrite (Z.eqb_sym (user_session y)), (Z.eqb_sym (product_id y)).
Qed.

Lemma kept_rows_sorted (R : Interaction -> Interaction -> Prop) l :
  StronglySorted R l ->
  forall ds dp, StronglySorted R (boolean_mask l (keep_from ds dp l)).
Proof.
  induction 1 as [|y l Hs IH Hy]; intros ds dp; [constructor|].
  rewrite kept_rows_cons.
  destruct ((user_session y =? ds) && (product_id y =? dp)); cbn [app]; [apply IH|].
  constructor; [apply IH|]. apply Forall_forall. intros x Hx.
  apply kept_rows_In in Hx. rewrite Forall_forall in Hy. now apply Hy.
Qed.

Lemma no_consecutive_repeat_left_aux (df : list Interaction) :
  StronglySorted (fun a b => session_time_leb a b = true)
                 (map snd (remove_consecutive_repeats df))
  /\ forall i a b,
       nth_error (map snd (remove_consecutive_repeats df)) i = Some a ->
       nth_error (map snd (remove_consecutive_repeats df)) (S i) = Some b ->
       same_session_item a b = false.
Proof.
  rewrite remove_consecutive_repeats_rows. split.
  - apply kept_rows_sorted. apply sort_values_sorted;
      [apply session_time_leb_total|apply session_time_leb_trans].
  - intros i a b Ha Hb. exact (kept_rows_no_repeat _ _ _ _ Ha Hb).
Qed.

(** X4. What is left after the removal is still in the order of session
    and time, and no two rows that follow each other in it have the
    same session and the same item. *)
Theorem no_consecutive_repeat_left (df : list Interaction) :
  let kept := map snd (remove_consecutive_repeats df) in
  StronglySorted (fun a b => session_time_leb a b = true) kept
  /\ forall i a b,
       nth_error kept i = Some a -> nth_error kept (S i) = Some b ->
       user_session a <> user_session b \/ product_id a <> product_id b.
Proof.
  intros kept. destruct (no_consecutive_repeat_left_aux df) as [Hs Hadj].
  split; [exact Hs|]. intros i a b Ha Hb. specialize (Hadj i a b Ha Hb).
  unfold same_session_item in Hadj. apply andb_false_iff in Hadj.
  destruct Hadj as [H|H]; apply Z.eqb_neq in H; auto.
Qed.

(** On a frame without consecutive repetition whose first row does not
    carry the fill values, the mask keeps every row. *)
Lemma kept_rows_all l : forall ds dp,
  (forall x rest, l = x :: rest ->
                  (user_session x =? ds) && (product_id x =? dp) = false) ->
  (forall i a b, nth_error l i = Some a -> nth_error l (S i) = Some b ->
                 same_session_item a b = false) ->
  boolean_mask l (keep_from ds dp l) = l.
Proof.
  induction l as [|y l IH]; intros ds dp Hhd Hadj; [reflexivity|].
  rewrite kept_rows_cons, (Hhd y l eq_refl). cbn [app]. f_equal.
  apply IH.
  - intros x rest ->. specialize (Hadj O y x eq_refl eq_refl).
    unfold same_session_item in Hadj.
    now rewrite (Z.eqb_sym (user_session x)), (Z.eqb_sym (product_id x)).
  - intros i a b Ha Hb. apply (Hadj (S i) a b); assumption.
Qed.

Lemma sorted_adjacent {A : Type} (R : A -> A -> Prop) l :
  StronglySorted R l ->
  forall i p r, nth_error l i = Some p -> nth_error l (S i) = Some r -> R p r.
Proof.
  induction 1 as [|x l Hs IH Hx]; intros i p r Hp Hr.
  - destruct i; discriminate.
  - destruct i as [|i].
    + inversion Hp; subst. rewrite Forall_forall in Hx. apply Hx.
      apply (nth_error_In l O). exact Hr.
    + apply (IH i); [exact Hp|exact Hr].
Qed.

Lemma kept_representative (df : list Interaction) :
  valid_session_ids df ->
  forall i r, nth_error (sort_session_time df) i = Some r ->
    exists j r', In (j, r') (remove_consecutive_repeats df)
                 /\ user_session r' = user_session r
                 /\ product_id r' = product_id r
                 /\ event_time_ts r' <= event_time_ts r.
Proof.
  intros Hv. induction i as [|i IH]; intros r Hr.
  - exists O, r. split; [|repeat split; lia].
    apply (kept_iff O r Hv). split; [exact Hr|exact I].
  - destruct (nth_error (sort_session_time df) i) as [p|] eqn:Hp.
    + destruct (same_session_item r p) eqn:E.
      * apply same_session_item_true in E as [Es Ei].
        destruct (IH p eq_refl) as (j & r' & Hin & Hs' & Hi' & Ht').
        exists j, r'. split; [exact Hin|]. split; [congruence|]. split; [congruence|].
        assert (Hle : session_time_leb p r = true).
        { eapply (sorted_adjacent (R := fun a b => session_time_leb a b = true));
            [|exact Hp|exact Hr].
          apply sort_values_sorted;
            [apply session_time_leb_total|apply session_time_leb_trans]. }
        unfold session_time_leb in Hle. rewrite <- Es in Hle.
        rewrite Z.ltb_irrefl, Z.eqb_refl in Hle. cbn in Hle.
        apply Z.leb_le in Hle. lia.
      * exists (S i), r. split; [|repeat split; lia].
        apply (kept_iff (S i) r Hv). split; [exact Hr|]. exists p. auto.
    + apply nth_error_None in Hp.
      assert (S i < List.length (sort_session_time df))%nat
        by (apply nth_error_Some; congruence). lia.
Qed.

Lemma every_session_item_kept_aux (df : list Interaction) :
  valid_session_ids df ->
  (forall r, In r df ->
     exists i r', In (i, r') (remove_consecutive_repeats df)
                  /\ user_session r' = user_session r
                  /\ product_id r' = product_id r
                  /\ event_time_ts r' <= event_time_ts r)
  /\ (forall i r', In (i, r') (remove_consecutive_repeats df) -> In r' df).
Proof.
  intros Hv. split.
  - intros r Hr. apply (sort_values_In session_time_leb) in Hr.
    apply In_nth_error in Hr as [i Hi].
    exact (kept_representative Hv i Hi).
  - intros i r' Hin. apply (kept_iff i r' Hv) in Hin as [Hn _].
    apply nth_error_In in Hn. now apply sort_values_In in Hn.
Qed.

(** X6. The removal loses no session and no item of a session: every
    row of the frame has a kept row of the same session and item that
    is not later than it.  The kept rows are rows of the frame. *)
Theorem every_session_item_kept (df : list Interaction) :
  valid_session_ids df ->
  (forall r, In r df ->
     exists i r', In (i, r') (remove_consecutive_repeats df)
                  /\ user_session r' = user_session r
                  /\ product_id r' = product_id r
                  /\ event_time_ts r' <= event_time_ts r)
  /\ (forall i r', In (i, r') (remove_consecutive_repeats df) -> In r' df).
Proof. exact (@every_session_item_kept_aux df). Qed.

Lemma first_seen_none df p :
  first_seen df p = None <-> forall r, In r df -> product_id r <> p.
Proof.
  unfold first_seen. split.
  - intros H r Hr Hp.
    assert (Hf : In r (filter (fun r => product_id r =? p) df))
      by (apply filter_In; split; [exact Hr|now apply Z.eqb_eq]).
    destruct (filter (fun r => product_id r =? p) df) as [|x l]; [destruct Hf|].
    destruct (agg_min_nonempty (event_time_ts x) (map event_time_ts l)) as [m Hm].
    cbn [map] in H. congruence.
  - intros H. rewrite filter_none; [reflexivity|].
    intros r Hr. apply Z.eqb_neq. now apply H.
Qed.

Lemma first_seen_is df p m :
  (exists r, In r df /\ product_id r = p /\ event_time_ts r = m) ->
  (forall r, In r df -> product_id r = p -> m <= event_time_ts r) ->
  first_seen df p = Some m.
Proof.
  intros (r & Hr & Hp & Ht) Hle.
  destruct (first_seen df p) as [m'|] eqn:E.
  - destruct (first_seen_least _ _ E) as [(r' & Hr' & Hp' & Ht') Hle'].
    specialize (Hle r' Hr' Hp'). specialize (Hle' r Hr Hp). f_equal. lia.
  - exfalso. apply (proj1 (first_seen_none df p) E r Hr Hp).
Qed.

Lemma first_seen_after_removal_aux (df : list Interaction) (item : Z) :
  valid_session_ids df ->
  first_seen (map snd (remove_consecutive_repeats df)) item = first_seen df item.
Proof.
  intros Hv. destruct (every_session_item_kept_aux Hv) as [Hrep Hsub].
  destruct (first_seen df item) as [m|] eqn:E.
  - destruct (first_seen_least _ _ E) as [(r & Hr & Hp & Ht) Hle].
    destruct (Hrep r Hr) as (i & r' & Hin & _ & Hi' & Ht').
    apply first_seen_is.
    + exists r'. split; [apply in_map_iff; exists (i, r'); auto|].
      split; [congruence|].
      specialize (Hle r' (Hsub i r' Hin)). lia.
    + intros x Hx Hxp. apply in_map_iff in Hx as ([j y] & Hy & Hin').
      cbn in Hy. subst y. apply Hle; [eapply Hsub; eauto|exact Hxp].
  - apply first_seen_none. intros x Hx.
    apply in_map_iff in Hx as ([j y] & Hy & Hin'). cbn in Hy. subst y.
    apply (proj1 (first_seen_none df item) E). eapply Hsub; eauto.
Qed.

(** X7. The removal does not change the time at which an item is seen
    first: the first-seen times computed after it are those of the
    whole frame. *)
Theorem first_seen_after_removal (df : list Interaction) (item : Z) :
  valid_session_ids df ->
  first_seen (map snd (remove_consecutive_repeats df)) item = first_seen df item.
Proof. exact (@first_seen_after_removal_aux df item). Qed.

Example datetime64_epoch :
  datetime64 1970 1 1 = 0
  /\ datetime64 2019 10 1 = 1569888000
  /\ datetime64 2019 10 8 = 1570492800
  /\ datetime64 2020 2 29 + 86400 = datetime64 2020 3 1.
Proof. repeat split. Qed.

(** X8. In the frame written to the parquet file every row carries the
    first-seen time of its item over the whole log; it is not later
    than the row, so that the recency is the plain difference in days,
    nothing being cut off at zero; and the row at which the item is
    first seen is in the file too. *)
Theorem to_parquet_recency (df : list Interaction) :
  valid_session_ids df ->
  forall r o, In (r, o) (to_parquet df) ->
    In r df
    /\ event_time_ts r < datetime64 2019 10 8
    /\ exists first,
         o = Some first
         /\ first_seen df (product_id r) = Some first
         /\ first <= event_time_ts r
         /\ (ETL.ItemRecency_transform (event_time_ts r) first ==
             (inject_Z (event_time_ts r) - inject_Z first) / 86400)%Q
         /\ exists r0, In (r0, Some first) (to_parquet df)
                       /\ product_id r0 = product_id r
                       /\ event_time_ts r0 = first.
Proof.
  intros Hv r o Hin. unfold to_parquet, first_week, before in *.
  destruct (every_session_item_kept_aux Hv) as [Hrep Hsub].
  set (kept := map snd (remove_consecutive_repeats df)) in *.
  assert (Hkept : forall x, In x kept -> In x df).
  { intros x Hx. apply in_map_iff in Hx as ([j y] & Hy & Hj). cbn in Hy. subst y.
    eapply Hsub; eauto. }
  apply filter_In in Hin as [Hin Hcut]. cbn [fst] in Hcut. apply Z.ltb_lt in Hcut.
  rewrite add_first_seen_rows in Hin |- *.
  apply in_map_iff in Hin as (r1 & Heq & Hr1). inversion Heq; subst r1 o. clear Heq.
  split; [now apply Hkept|]. split; [exact Hcut|].
  unfold kept at 1. rewrite first_seen_after_removal_aux by exact Hv.
  destruct (first_seen df (product_id r)) as [m|] eqn:E.
  - exists m. split; [reflexivity|]. split; [reflexivity|].
    destruct (first_seen_least _ _ E) as [(r0 & Hr0 & Hp0 & Ht0) Hle].
    assert (Hm : m <= event_time_ts r) by (apply Hle; [now apply Hkept|reflexivity]).
    split; [exact Hm|]. split.
    + destruct (ItemRecency_transform_max (event_time_ts r) m) as [-> _].
      apply Q.max_r. unfold Qdiv. apply Qmult_le_0_compat; [|unfold Qle; cbn; lia].
      unfold Qminus. rewrite <- Qle_minus_iff. rewrite <- Zle_Qle. exact Hm.
    + destruct (Hrep r0 Hr0) as (i & r' & Hin' & _ & Hi' & Ht').
      assert (Hr' : In r' kept) by (apply in_map_iff; exists (i, r'); auto).
      assert (Hts : event_time_ts r' = m).
      { specialize (Hle r' (Hkept r' Hr')). lia. }
      exists r'. split; [|split; [congruence|exact Hts]].
      apply filter_In. split.
      * apply in_map_iff. exists r'. split; [|exact Hr'].
        f_equal. unfold kept. rewrite first_seen_after_removal_aux by exact Hv.
        replace (product_id r') with (product_id r) by congruence. exact E.
      * cbn [fst]. apply Z.ltb_lt. lia.
  - exfalso. apply (proj1 (first_seen_none df (product_id r)) E r);
      [now apply Hkept|reflexivity].
Qed.

End DedupFacts.

(** ** More on sessions, windows and the day index *)

Section SessionFacts.
Import Frame ETL.
Open Scope Z_scope.

Lemma selected_features_In df rec :
  In rec (selected_features (groupby_features df)) <->
  exists s, In s (groupby_keys df)
            /\ rec = record_of (column_min (map event_time_dt_first (Groupby df)))
                               (session_of df s).
Proof.
  unfold groupby_features. rewrite selected_features_records.
  set (first_day := column_min (map event_time_dt_first (Groupby df))).
  rewrite Groupby_sessions, map_map, in_map_iff.
  split; intros (s & H1 & H2); exists s; auto.
Qed.

Lemma is_session_start_In df s t :
  is_session_start df s t -> exists r, In r df /\ event_time_ts r = t.
Proof. intros [(r & Hr & _ & Ht) _]. eauto. Qed.

(** X9. When all events fall within [n] days from some time on, every
    session gets a day index between 1 and [n], and the index 1 is
    given to a session unless the frame is empty. *)
Theorem day_index_range (df : list Row) (lo n : Z) :
  (forall r, In r df -> lo <= event_time_ts r < lo + n * 86400) ->
  (forall rec, In rec (selected_features (groupby_features df)) ->
               1 <= out_day_index rec <= n)
  /\ (df <> [] ->
      exists rec, In rec (selected_features (groupby_features df))
                  /\ out_day_index rec = 1).
Proof.
  intros Hrange.
  assert (Hkeys : df <> [] -> groupby_keys df <> []).
  { intros Hne E. destruct df as [|r df']; [congruence|].
    assert (Hin : In (user_session r) (groupby_keys (r :: df')))
      by (apply groupby_keys_In; exists r; split; [now left|reflexivity]).
    rewrite E in Hin. destruct Hin. }
  split.
  - intros rec Hin. apply selected_features_In in Hin as (s & Hs & ->).
    assert (Hne : groupby_keys df <> []) by (intros E; rewrite E in Hs; destruct Hs).
    pose proof (@first_day_least df Hne) as Hfirst.
    set (first_day := column_min (map event_time_dt_first (Groupby df))) in *.
    pose proof (session_first_event df s Hs) as Hstart.
    set (start := event_time_dt_first (session_of df s)) in *.
    change (out_day_index (record_of first_day (session_of df s)))
      with (dt_days (start - first_day) + 1).
    assert (Hle : first_day <= start) by (destruct Hfirst as [_ H]; eapply H; eauto).
    destruct (is_session_start_In Hstart) as (r & Hr & Hrt).
    destruct Hfirst as [(s0 & Hs0) _].
    destruct (is_session_start_In Hs0) as (r0 & Hr0 & Hr0t).
    pose proof (Hrange r Hr). pose proof (Hrange r0 Hr0).
    unfold dt_days.
    assert (0 <= (start - first_day) / 86400) by (apply Z.div_pos; lia).
    assert ((start - first_day) / 86400 < n)
      by (apply Z.div_lt_upper_bound; lia).
    lia.
  - intros Hdf. specialize (Hkeys Hdf).
    pose proof (@first_day_least df Hkeys) as Hfirst.
    set (first_day := column_min (map event_time_dt_first (Groupby df))) in *.
    destruct Hfirst as [(s & Hs) Hmin].
    assert (Hk : In s (groupby_keys df)).
    { apply groupby_keys_In. destruct Hs as [(r & Hr & Hrs & _) _]. eauto. }
    exists (record_of first_day (session_of df s)). split.
    + apply selected_features_In. exists s. auto.
    + pose proof (session_first_event df s Hk) as Hstart.
      change (out_day_index (record_of first_day (session_of df s)))
        with (dt_days (event_time_dt_first (session_of df s) - first_day) + 1).
      rewrite <- (is_session_start_unique Hs Hstart).
      unfold dt_days. rewrite Z.sub_diag. reflexivity.
Qed.

Lemma list_sum_step (x : nat) (l : list nat) :
  list_sum (x :: l) = (x + list_sum l)%nat.
Proof. reflexivity. Qed.

Lemma indicator_sum_absent (keys : list Z) (k : Z) :
  ~ In k keys ->
  list_sum (map (fun s => if k =? s then 1%nat else 0%nat) keys) = 0%nat.
Proof.
  induction keys as [|y keys IH]; intros Hk; [reflexivity|].
  cbn [map]. rewrite list_sum_step.
  replace (k =? y) with false
    by (symmetry; apply Z.eqb_neq; intros ->; apply Hk; now left).
  apply IH. intros H. apply Hk. now right.
Qed.

Lemma indicator_sum (keys : list Z) (k : Z) :
  NoDup keys -> In k keys ->
  list_sum (map (fun s => if k =? s then 1%nat else 0%nat) keys) = 1%nat.
Proof.
  induction 1 as [|x keys Hx Hnd IH]; intros Hin; [destruct Hin|].
  cbn [map]. rewrite list_sum_step. destruct Hin as [->|Hin].
  - rewrite Z.eqb_refl, indicator_sum_absent by exact Hx. reflexivity.
  - replace (k =? x) with false
      by (symmetry; apply Z.eqb_neq; intros ->; contradiction).
    now apply IH.
Qed.

Lemma list_sum_map_add {A : Type} (f g : A -> nat) l :
  list_sum (map (fun x => (f x + g x)%nat) l)
  = (list_sum (map f l) + list_sum (map g l))%nat.
Proof.
  induction l as [|x l IH]; [reflexivity|].
  cbn [map]. rewrite !list_sum_step, IH. lia.
Qed.

Lemma session_sizes_sum (keys : list Z) (df : list Row) :
  NoDup keys ->
  (forall r, In r df -> In (user_session r) keys) ->
  list_sum (map (fun s => List.length (filter (fun r => user_session r =? s) df)) keys)
  = List.length df.
Proof.
  intros Hnd. induction df as [|r df IH]; intros Hall.
  - cbn [filter List.length]. clear Hnd Hall.
    induction keys as [|k keys IHk]; [reflexivity|].
    cbn [map]. rewrite list_sum_step, IHk. reflexivity.
  - cbn [List.length].
    transitivity
      (list_sum (map (fun s => if (user_session r =? s)%Z then 1%nat else 0%nat) keys)
       + list_sum (map (fun s => List.length
                                   (filter (fun r => (user_session r =? s)%Z) df)) keys))%nat.
    + rewrite <- list_sum_map_add. f_equal. apply map_ext. intros s.
      cbn [filter]. destruct (user_session r =? s); reflexivity.
    + rewrite (@indicator_sum keys (user_session r) Hnd (Hall r (or_introl eq_refl))).
      rewrite IH by (intros x Hx; apply Hall; now right). reflexivity.
Qed.

(** X10. The aggregator has exactly one row per session of the frame
    and loses no interaction: the counts of its rows add up to the
    number of rows of the frame. *)
Theorem groupby_conserves_interactions (df : list Row) :
  NoDup (map g_user_session (groupby_features df))
  /\ (forall s, In s (map g_user_session (groupby_features df))
                <-> exists r, In r df /\ user_session r = s)
  /\ fold_right Z.add 0 (map product_id_count (groupby_features df))
     = Z.of_nat (List.length df).
Proof.
  unfold groupby_features. rewrite Groupby_sessions, !map_map. cbn [g_user_session session_of].
  rewrite map_id. split; [apply groupby_keys_NoDup|]. split.
  - intros s. apply groupby_keys_In.
  - rewrite <- (@session_sizes_sum (groupby_keys df) df (groupby_keys_NoDup df))
      by (intros r Hr; apply groupby_keys_In; eauto).
    cbn [product_id_count].
    induction (groupby_keys df) as [|s keys IH]; [reflexivity|].
    cbn [map fold_right]. rewrite list_sum_step, IH.
    cbn [product_id_count session_of].
    rewrite length_map, session_sequence_length. lia.
Qed.

Lemma nth_padded_window (l : list Z) (i : nat) :
  (i < 20)%nat ->
  nth i (padded_window 0 l) 0 =
  if (i <? Nat.min (List.length l) 20)%nat then nth i l 0 else 0.
Proof.
  intros Hi. unfold padded_window.
  destruct (Nat.ltb_spec i (Nat.min (List.length l) 20)) as [Hlt|Hge].
  - rewrite app_nth1 by (rewrite length_firstn; lia).
    rewrite nth_firstn.
    destruct (Nat.ltb_spec i (Nat.min (List.length l) 20)); [reflexivity|lia].
  - rewrite app_nth2 by (rewrite length_firstn; lia).
    apply nth_repeat.
Qed.

(** X11. When no code of a categorical column is 0, as with
    [Categorify(start_index=1)], the padding cannot be mistaken for an
    interaction: in a list of an output record the entry at a position
    below 20 is 0 exactly from the position min(count, 20) on. *)
Theorem padding_is_recognisable (df : list Row) :
  (forall r c, In r df -> cat r c <> 0) ->
  forall rec c i, In rec (workflow_transform df) -> (i < 20)%nat ->
    (nth i (cat_list_seq rec c) 0 = 0
     <-> Z.min (out_product_id_count rec) 20 <= Z.of_nat i).
Proof.
  intros Hcodes rec c i Hin Hi.
  apply workflow_transform_In in Hin as (s & _ & -> & _).
  cbn [cat_list_seq out_product_id_count record_of cat_list product_id_count session_of].
  unfold groupby_features_trim_cat. rewrite ListSlice_window, nth_padded_window by exact Hi.
  rewrite !length_map.
  destruct (Nat.ltb_spec i (Nat.min (List.length (session_sequence df s)) 20))
    as [Hlt|Hge].
  - split; [|lia]. intros H0. exfalso.
    assert (Hlen : (i < List.length (map (fun r => cat r c) (session_sequence df s)))%nat)
      by (rewrite length_map; lia).
    pose proof (nth_In _ 0 Hlen) as Hn. rewrite H0 in Hn.
    apply in_map_iff in Hn as (r & Hr0 & Hr).
    apply session_sequence_In in Hr as [Hr _]. exact (Hcodes r c Hr Hr0).
  - split; [lia|reflexivity].
Qed.

End SessionFacts.

(** ** More on the cyclical encoding *)

Section CyclicalFacts.
Import ETL.
Open Scope R_scope.

Lemma cos_lt_1 (x : R) : 0 < x < 2 * PI -> cos x < 1.
Proof.
  intros [H0 H2]. replace x with (2 * (x / 2)) by field.
  rewrite cos_2a_sin.
  assert (Hs : 0 < sin (x / 2)) by (apply sin_gt_0; lra).
  nra.
Qed.

(** The angle of a weekday, and the difference of two angles. *)
Lemma weekday_angle_diff (a b : R) :
  2 * PI * ((a + 1 + 0.000001) / 7) - 2 * PI * ((b + 1 + 0.000001) / 7)
  = 2 * PI * (a - b) / 7.
Proof. field. Qed.

(** X12. Two days that follow each other are encoded at the same
    distance whatever the day, and this is also the distance from the
    last day of the week to the first: the encoding closes the week
    into a circle. *)
Theorem consecutive_days_equidistant (d : Z) :
  euclidean_distance (weekday_encoding (d + 1)) (weekday_encoding d)
  = euclidean_distance (weekday_encoding 6) (weekday_encoding 0).
Proof.
  unfold euclidean_distance, weekday_encoding, weekday_sin, weekday_cos,
    get_cycled_feature_value_sin, get_cycled_feature_value_cos.
  cbn [fst snd]. rewrite !unit_circle_distance, !weekday_angle_diff.
  rewrite plus_IZR.
  replace (2 * PI * (IZR d + 1 - IZR d) / 7) with (2 * PI / 7) by field.
  replace (2 * PI * (6 - 0) / 7) with (2 * PI - 2 * PI / 7) by field.
  rewrite (cos_minus (2 * PI)), cos_2PI, sin_2PI.
  f_equal. ring.
Qed.

Lemma weekday_encoding_injective_aux (d d' : Z) :
  (0 <= d <= 6)%Z -> (0 <= d' <= 6)%Z ->
  weekday_encoding d = weekday_encoding d' -> d = d'.
Proof.
  intros Hd Hd' Heq. unfold weekday_encoding in Heq. inversion Heq as [[Hs Hc]].
  unfold weekday_sin, weekday_cos, get_cycled_feature_value_sin,
    get_cycled_feature_value_cos in Hs, Hc.
  set (a := 2 * PI * ((IZR d + 1 + 0.000001) / 7)) in *.
  set (b := 2 * PI * ((IZR d' + 1 + 0.000001) / 7)) in *.
  assert (Hcos : cos (a - b) = 1).
  { rewrite cos_minus, Hs, Hc. pose proof (sin2_cos2 b) as H.
    unfold Rsqr in H. lra. }
  assert (Hcos' : cos (b - a) = 1).
  { replace (b - a) with (- (a - b)) by ring. now rewrite cos_neg. }
  assert (Hab : a - b = 2 * PI * (IZR d - IZR d') / 7)
    by (unfold a, b; apply weekday_angle_diff).
  assert (Hba : b - a = 2 * PI * (IZR d' - IZR d) / 7)
    by (unfold a, b; apply weekday_angle_diff).
  pose proof PI_RGT_0 as Hpi.
  assert (B1 : 0 <= IZR d <= 6) by (split; apply IZR_le; lia).
  assert (B2 : 0 <= IZR d' <= 6) by (split; apply IZR_le; lia).
  destruct (Z.lt_trichotomy d d') as [Hlt|[Heq'|Hgt]]; [|exact Heq'|].
  - exfalso. assert (H1 : IZR d + 1 <= IZR d').
    { rewrite <- plus_IZR. apply IZR_le. lia. }
    assert (Hlt1 : cos (b - a) < 1).
    { apply cos_lt_1. rewrite Hba. split; nra. }
    lra.
  - exfalso. assert (H1 : IZR d' + 1 <= IZR d).
    { rewrite <- plus_IZR. apply IZR_le. lia. }
    assert (Hlt1 : cos (a - b) < 1).
    { apply cos_lt_1. rewrite Hab. split; nra. }
    lra.
Qed.

Lemma weekday_sin_never_zero_aux :
  (forall d : Z, (0 <= d <= 6)%Z -> weekday_sin d <> 0)
  /\ sin (2 * PI * ((IZR 6 + 1) / 7)) = 0.
Proof.
  pose proof PI_RGT_0 as Hpi. split.
  - intros d Hd. unfold weekday_sin, get_cycled_feature_value_sin.
    assert (Hcases : (d = 0 \/ d = 1 \/ d = 2 \/ d = 3 \/ d = 4 \/ d = 5 \/ d = 6)%Z)
      by lia.
    destruct Hcases as [-> | [-> | [-> | [-> | [-> | [-> | -> ]]]]]].
    1-3: apply Rgt_not_eq; apply sin_gt_0; lra.
    1-3: apply Rlt_not_eq; apply sin_lt_0; lra.
    replace (2 * PI * ((6 + 1 + 0.000001) / 7))
      with (2 * PI * (0.000001 / 7) + 2 * PI) by field.
    rewrite sin_plus, cos_2PI, sin_2PI.
    assert (0 < sin (2 * PI * (0.000001 / 7))) by (apply sin_gt_0; lra).
    lra.
  - replace (2 * PI * ((6 + 1) / 7)) with (2 * PI) by field. apply sin_2PI.
Qed.

(** X13. Within a week no two days share both features: from the sine
    and the cosine the day can be told. *)
Theorem weekday_encoding_injective (d d' : Z) :
  (0 <= d <= 6)%Z -> (0 <= d' <= 6)%Z ->
  weekday_encoding d = weekday_encoding d' -> d = d'.
Proof. exact (@weekday_encoding_injective_aux d d'). Qed.

(** X14. With the constant 0.000001 the sine feature of a weekday is
    never exactly zero; without it the last day of the week would be
    encoded with the sine of a full turn, which is zero. *)
Theorem weekday_sin_never_zero :
  (forall d : Z, (0 <= d <= 6)%Z -> weekday_sin d <> 0)
  /\ sin (2 * PI * ((IZR 6 + 1) / 7)) = 0.
Proof. exact weekday_sin_never_zero_aux. Qed.

Example first_of_october_2019_is_a_tuesday :
  et_dayofweek (Preproc.datetime64 2019 10 1) = 1%Z
  /\ et_dayofweek (Preproc.datetime64 2019 10 6 + 86399) = 6%Z
  /\ et_dayofweek (Preproc.datetime64 2019 10 7) = 0%Z.
Proof. repeat split. Qed.

Lemma et_dayofweek_week (ts k : Z) :
  et_dayofweek (ts + k * (7 * 86400)) = et_dayofweek ts.
Proof.
  unfold et_dayofweek.
  replace (ts + k * (7 * 86400))%Z with (ts + (k * 7) * 86400)%Z by ring.
  rewrite Z.div_add by lia.
  replace (ts / 86400 + k * 7 + 3)%Z with (ts / 86400 + 3 + k * 7)%Z by ring.
  now rewrite Z.mod_add by lia.
Qed.

(** X18. For every event time the weekday lies between 0 and 6, so the
    properties of the encoding hold for every event: its sine feature
    is never zero, two events have the same two features exactly when
    they fall on the same weekday, and moving an event by whole weeks
    changes neither feature. *)
Theorem event_weekday_features (ts ts' : Z) :
  (0 <= et_dayofweek ts <= 6)%Z
  /\ weekday_sin (et_dayofweek ts) <> 0
  /\ (weekday_encoding (et_dayofweek ts) = weekday_encoding (et_dayofweek ts')
      <-> et_dayofweek ts = et_dayofweek ts')
  /\ (forall k : Z,
        weekday_encoding (et_dayofweek (ts + k * (7 * 86400)))
        = weekday_encoding (et_dayofweek ts)).
Proof.
  pose proof (et_dayofweek_range ts) as H. pose proof (et_dayofweek_range ts') as H'.
  split; [exact H|]. split; [apply weekday_sin_never_zero_aux; exact H|].
  split.
  - split; [now apply weekday_encoding_injective_aux|]. intros ->. reflexivity.
  - intros k. now rewrite et_dayofweek_week.
Qed.

End CyclicalFacts.

(** ** The batch of the inference notebooks *)

Section BatchFacts.
Import Frame Inference.
Open Scope Z_scope.

Context {A : Type}.
Variable session_col : A -> Z.
Variable time_col : A -> Z.

Lemma boolean_mask_map (p : A -> bool) (l : list A) :
  boolean_mask l (map p l) = filter p l.
Proof.
  induction l as [|x l IH]; [reflexivity|].
  cbn [map filter]. rewrite boolean_mask_cons, IH. reflexivity.
Qed.

Lemma existsb_eqb_In (x : Z) (values : list Z) :
  existsb (Z.eqb x) values = true <-> In x values.
Proof.
  rewrite existsb_exists. split.
  - intros (y & Hy & E). apply Z.eqb_eq in E. now subst.
  - intros H. exists x. split; [exact H|apply Z.eqb_refl].
Qed.

(** The sessions that [value_counts] reports more than once. *)
Lemma sessions_to_use_In (col : list Z) (x : Z) :
  In x (map fst (filter (fun kv => (1 <? snd kv)%nat) (value_counts col)))
  <-> (2 <= count_occ Z.eq_dec col x)%nat.
Proof.
  unfold value_counts. rewrite in_map_iff. split.
  - intros ([k n] & Hk & Hin). cbn in Hk. subst k.
    apply filter_In in Hin as [Hin Hn]. cbn [snd] in Hn. apply Nat.ltb_lt in Hn.
    apply in_map_iff in Hin as (k & Heq & _). inversion Heq; subst. lia.
  - intros Hc. exists (x, count_occ Z.eq_dec col x). split; [reflexivity|].
    apply filter_In. split.
    + apply in_map_iff. exists x. split; [reflexivity|].
      apply nodup_In. apply (count_occ_In Z.eq_dec). lia.
    + cbn [snd]. apply Nat.ltb_lt. lia.
Qed.

Lemma filtered_batch_filter (batch : list A) :
  filtered_batch session_col batch =
  filter (fun r => existsb (Z.eqb (session_col r))
                     (map fst (filter (fun kv => (1 <? snd kv)%nat)
                                      (value_counts (map session_col batch)))))
         batch.
Proof.
  unfold filtered_batch, isin. rewrite map_map. apply boolean_mask_map.
Qed.

Lemma count_occ_filter_session (q : Z -> bool) (l : list A) (s : Z) :
  q s = true ->
  count_occ Z.eq_dec (map session_col (filter (fun r => q (session_col r)) l)) s
  = count_occ Z.eq_dec (map session_col l) s.
Proof.
  intros Hq. induction l as [|r l IH]; [reflexivity|].
  cbn [filter map]. destruct (q (session_col r)) eqn:E.
  - cbn [map count_occ]. destruct (Z.eq_dec (session_col r) s); now rewrite IH.
  - cbn [count_occ]. destruct (Z.eq_dec (session_col r) s) as [Heq|Hne]; [|exact IH].
    congruence.
Qed.

(** X15. A row of the batch is sent to the server exactly when its
    session has at least two rows in the batch.  The sessions that are
    sent are sent whole, so that each of them still has at least two
    rows, and the rows keep their order. *)
Theorem filtered_batch_sessions (batch : list A) :
  (forall r, In r (filtered_batch session_col batch) <->
             In r batch
             /\ (2 <= count_occ Z.eq_dec (map session_col batch) (session_col r))%nat)
  /\ (forall r, In r (filtered_batch session_col batch) ->
        count_occ Z.eq_dec (map session_col (filtered_batch session_col batch))
                  (session_col r)
        = count_occ Z.eq_dec (map session_col batch) (session_col r))
  /\ (exists keep : A -> bool, filtered_batch session_col batch = filter keep batch).
Proof.
  rewrite filtered_batch_filter.
  set (vals := map fst (filter (fun kv => (1 <? snd kv)%nat)
                               (value_counts (map session_col batch)))).
  split; [|split].
  - intros r. rewrite filter_In, existsb_eqb_In. unfold vals.
    now rewrite sessions_to_use_In.
  - intros r Hr. apply filter_In in Hr as [_ Hr].
    exact (count_occ_filter_session (fun s => existsb (Z.eqb s) vals) batch _ Hr).
  - eexists. reflexivity.
Qed.

Lemma sorted_app_cross (R : A -> A -> Prop) (l1 l2 : list A) :
  StronglySorted R (l1 ++ l2) ->
  forall a b, In a l1 -> In b l2 -> R a b.
Proof.
  induction l1 as [|x l1 IH]; intros Hs a b Ha Hb; [destruct Ha|].
  cbn in Hs. inversion Hs as [|? ? Hs' Hx]; subst.
  destruct Ha as [<-|Ha]; [|now apply IH].
  rewrite Forall_forall in Hx. apply Hx. apply in_or_app. now right.
Qed.

Lemma time_leb_sorted (df : list A) :
  StronglySorted (fun a b => time_col a <= time_col b)
                 (sort_values (time_leb time_col) df).
Proof.
  assert (H : StronglySorted (fun a b => time_leb time_col a b = true)
                             (sort_values (time_leb time_col) df)).
  { apply sort_values_sorted; unfold time_leb; intros; rewrite ?Z.leb_le in *; lia. }
  induction H as [|x l Hs IH Hx]; constructor; [exact IH|].
  eapply Forall_impl; [|exact Hx]. intros y Hy. now apply Z.leb_le.
Qed.

(** X16. The batch of the PyTorch notebook is made of the 50 earliest
    rows of the frame, that of the TensorFlow notebook of the 50 latest
    (of all rows when there are fewer): no row outside the first batch
    is earlier than a row of it, and no row outside the second is later
    than a row of it. *)
Theorem batch_rows_by_time (df : list A) :
  (List.length (first_rows time_col df) = Nat.min 50 (List.length df)
   /\ exists rest, Permutation df (first_rows time_col df ++ rest)
                   /\ forall a b, In a (first_rows time_col df) -> In b rest ->
                                  time_col a <= time_col b)
  /\ (List.length (last_rows time_col df) = Nat.min 50 (List.length df)
      /\ exists rest, Permutation df (rest ++ last_rows time_col df)
                      /\ forall a b, In a rest -> In b (last_rows time_col df) ->
                                     time_col a <= time_col b).
Proof.
  unfold first_rows, last_rows.
  pose proof (time_leb_sorted df) as Hs.
  pose proof (sort_values_perm (time_leb time_col) df) as Hp.
  pose proof (sort_values_length (time_leb time_col) df) as Hl.
  set (sorted := sort_values (time_leb time_col) df) in *.
  split; split.
  - rewrite length_firstn. lia.
  - exists (skipn 50 sorted). rewrite firstn_skipn. split; [exact Hp|].
    apply sorted_app_cross. now rewrite firstn_skipn.
  - rewrite length_skipn. lia.
  - exists (firstn (List.length sorted - 50) sorted). rewrite firstn_skipn.
    split; [exact Hp|]. apply sorted_app_cross. now rewrite firstn_skipn.
Qed.

End BatchFacts.

(** ** The training loop over the days *)

Section TrainingFacts.
Import Training.
Open Scope Z_scope.

Lemma range_nth start stop k :
  (k < Z.to_nat (stop - start))%nat ->
  nth_error (range start stop) k = Some (start + Z.of_nat k).
Proof.
  intros Hk. unfold range. rewrite nth_error_map.
  rewrite nth_error_seq. destruct (Nat.ltb_spec k (Z.to_nat (stop - start))); [|lia].
  reflexivity.
Qed.

Lemma range_length start stop : List.length (range start stop) = Z.to_nat (stop - start).
Proof. unfold range. now rewrite length_map, length_seq. Qed.

(** The steps of the loop over a list of days, by position. *)
Lemma steps_nth (days : list Z) : forall k day,
  nth_error days k = Some day ->
  nth_error (flat_map (fun t => [Train t; Evaluate (t + 1)]) days) (2 * k)
  = Some (Train day)
  /\ nth_error (flat_map (fun t => [Train t; Evaluate (t + 1)]) days) (2 * k + 1)
     = Some (Evaluate (day + 1)).
Proof.
  induction days as [|t days IH]; intros k day Hk; [destruct k; discriminate|].
  destruct k as [|k].
  - cbn in Hk. inversion Hk; subst. split; reflexivity.
  - cbn [nth_error] in Hk. destruct (IH k day Hk) as [H1 H2].
    replace (2 * S k)%nat with (S (S (2 * k))) by lia.
    replace (S (S (2 * k)) + 1)%nat with (S (S (2 * k + 1))) by lia.
    cbn [flat_map app nth_error]. split; assumption.
Qed.

Lemma steps_length (days : list Z) :
  List.length (flat_map (fun t => [Train t; Evaluate (t + 1)]) days)
  = (2 * List.length days)%nat.
Proof. induction days as [|t days IH]; cbn [flat_map app List.length]; lia. Qed.

Lemma time_windows_nth start final k :
  (k < Z.to_nat (final - start))%nat ->
  nth_error (time_windows start final) (2 * k) = Some (Train (start + Z.of_nat k))
  /\ nth_error (time_windows start final) (2 * k + 1)
     = Some (Evaluate (start + Z.of_nat k + 1)).
Proof.
  intros Hk. unfold time_windows. apply steps_nth. now apply range_nth.
Qed.

(** X17. The loop trains on the days from the start index up to the one
    before the final index, one after the other, and after each day it
    evaluates on the next one.  The model is thus never evaluated on a
    day on which, or after which, it has already been trained; with a
    final index that is not above the start index nothing is done. *)
Theorem time_windows_no_look_ahead (start final : Z) :
  List.length (time_windows start final) = (2 * Z.to_nat (final - start))%nat
  /\ (forall k, (k < Z.to_nat (final - start))%nat ->
        nth_error (time_windows start final) (2 * k)
        = Some (Train (start + Z.of_nat k))
        /\ nth_error (time_windows start final) (2 * k + 1)
           = Some (Evaluate (start + Z.of_nat k + 1)))
  /\ (forall i j d d',
        nth_error (time_windows start final) i = Some (Evaluate d) ->
        nth_error (time_windows start final) j = Some (Train d') ->
        (j < i)%nat -> d' < d)
  /\ (final <= start -> time_windows start final = []).
Proof.
  assert (Hlen : List.length (time_windows start final)
                 = (2 * Z.to_nat (final - start))%nat).
  { unfold time_windows. now rewrite steps_length, range_length. }
  split; [exact Hlen|]. split; [intros k Hk; now apply time_windows_nth|]. split.
  - intros i j d d' Hi Hj Hji.
    assert (Hi' : (i < 2 * Z.to_nat (final - start))%nat)
      by (rewrite <- Hlen; apply nth_error_Some; congruence).
    assert (Hj' : (j < 2 * Z.to_nat (final - start))%nat) by lia.
    destruct (Nat.Even_or_Odd i) as [[k ->]|[k ->]].
    + destruct (@time_windows_nth start final k) as [H _]; [lia|]. congruence.
    + destruct (@time_windows_nth start final k) as [_ H]; [lia|].
      rewrite H in Hi. inversion Hi; subst d.
      destruct (Nat.Even_or_Odd j) as [[k' ->]|[k' ->]].
      * destruct (@time_windows_nth start final k') as [H' _]; [lia|].
        rewrite H' in Hj. inversion Hj; subst d'. lia.
      * destruct (@time_windows_nth start final k') as [_ H']; [lia|]. congruence.
  - intros Hle. unfold time_windows, range.
    replace (Z.to_nat (final - start)) with O by lia. reflexivity.
Qed.

End TrainingFacts.

(** ** The further properties on the sample data *)

Section MoreSamples.
Import Frame Preproc.
Open Scope Z_scope.

Example sample_raw_ok_loads :
  load_interactions sample_parse sample_raw_ok
  = inr [view 7 1569888000 1; view 7 1569888000 2].
Proof. reflexivity. Qed.

Lemma load_interactions_rows_witness :
  load_interactions sample_parse sample_raw_ok
  = inr [view 7 1569888000 1; view 7 1569888000 2]
  /\ List.length (filter has_session sample_raw_ok) = 2%nat.
Proof.
  assert (H : load_interactions sample_parse sample_raw_ok
              = inr [view 7 1569888000 1; view 7 1569888000 2]) by reflexivity.
  split; [exact H|].
  exact (Forall2_length (load_interactions_rows sample_parse sample_raw_ok H)).
Defined.

Lemma load_interactions_sessions_witness :
  load_interactions sample_parse sample_raw_ok
  = inr [view 7 1569888000 1; view 7 1569888000 2]
  /\ (user_session (view 7 1569888000 1) = user_session (view 7 1569888000 2)
      <-> Some "s"%string = Some "t"%string).
Proof.
  assert (H : load_interactions sample_parse sample_raw_ok
              = inr [view 7 1569888000 1; view 7 1569888000 2]) by reflexivity.
  split; [exact H|].
  exact (load_interactions_sessions sample_parse sample_raw_ok H
           0%nat 1%nat eq_refl eq_refl eq_refl eq_refl).
Defined.

Lemma loaded_frame_first_row_kept_witness :
  load_interactions sample_parse sample_raw_ok
  = inr [view 7 1569888000 1; view 7 1569888000 2]
  /\ In (O, view 7 1569888000 1)
        (remove_consecutive_repeats [view 7 1569888000 1; view 7 1569888000 2]).
Proof.
  assert (H : load_interactions sample_parse sample_raw_ok
              = inr [view 7 1569888000 1; view 7 1569888000 2]) by reflexivity.
  split; [exact H|].
  exact (proj2 (loaded_frame_first_row_kept sample_parse sample_raw_ok
                  (r := view 7 1569888000 1) H eq_refl)).
Defined.

Lemma every_session_item_kept_witness :
  valid_session_ids sample_log
  /\ exists i r', In (i, r') (remove_consecutive_repeats sample_log)
                  /\ user_session r' = 1 /\ product_id r' = 7
                  /\ event_time_ts r' <= 20.
Proof.
  split; [exact sample_log_valid|].
  exact (proj1 (every_session_item_kept sample_log_valid) (view 7 20 1)
               (or_intror (or_intror (or_intror (or_introl eq_refl))))).
Defined.

Lemma first_seen_after_removal_witness :
  valid_session_ids sample_log
  /\ first_seen (map snd (remove_consecutive_repeats sample_log)) 7
     = first_seen sample_log 7.
Proof.
  split; [exact sample_log_valid|].
  exact (first_seen_after_removal 7 sample_log_valid).
Defined.

Example sample_log_parquet :
  to_parquet sample_log =
  [(view 7 10 1, Some 5); (view 8 30 1, Some 30); (view 7 40 1, Some 5);
   (view 7 5 2, Some 5)].
Proof. reflexivity. Qed.

Lemma to_parquet_recency_witness :
  valid_session_ids sample_log
  /\ In (view 7 40 1, Some 5) (to_parquet sample_log)
  /\ event_time_ts (view 7 40 1) < datetime64 2019 10 8.
Proof.
  assert (Hin : In (view 7 40 1, Some 5) (to_parquet sample_log))
    by (right; right; left; reflexivity).
  split; [exact sample_log_valid|]. split; [exact Hin|].
  exact (proj1 (proj2 (to_parquet_recency sample_log_valid _ _ Hin))).
Defined.

Lemma sample_frame_week r :
  In r ETL.sample_frame ->
  100 <= ETL.event_time_ts r < 100 + 7 * 86400.
Proof.
  unfold ETL.sample_frame. cbn [seq map app]. intros H.
  repeat (destruct H as [<-|H]; [cbn; lia|]). destruct H.
Defined.

Lemma day_index_range_witness :
  (forall r, In r ETL.sample_frame -> 100 <= ETL.event_time_ts r < 100 + 7 * 86400)
  /\ exists rec, In rec (ETL.selected_features (ETL.groupby_features ETL.sample_frame))
                 /\ ETL.out_day_index rec = 1.
Proof.
  split; [exact sample_frame_week|].
  apply (proj2 (@day_index_range ETL.sample_frame 100 7 sample_frame_week)).
  discriminate.
Defined.

Lemma sample_frame_codes r c :
  In r ETL.sample_frame -> ETL.cat r c <> 0.
Proof.
  unfold ETL.sample_frame. cbn [seq map app]. intros H.
  repeat (destruct H as [<-|H]; [destruct c; cbn; discriminate|]). destruct H.
Defined.

Lemma padding_is_recognisable_witness :
  (forall r c, In r ETL.sample_frame -> ETL.cat r c <> 0)
  /\ exists rec,
       In rec (ETL.workflow_transform ETL.sample_frame)
       /\ (nth 5 (ETL.cat_list_seq rec ETL.product_id) 0 = 0
           <-> Z.min (ETL.out_product_id_count rec) 20 <= 5).
Proof.
  split; [exact sample_frame_codes|].
  set (rec := nth 0 (ETL.workflow_transform ETL.sample_frame)
                  (ETL.record_of 0 (ETL.session_of ETL.sample_frame 0))).
  assert (Hin : In rec (ETL.workflow_transform ETL.sample_frame)).
  { apply nth_In. vm_compute. lia. }
  exists rec. split; [exact Hin|].
  apply (@padding_is_recognisable ETL.sample_frame sample_frame_codes
           rec ETL.product_id 5%nat Hin).
  lia.
Defined.

Lemma weekday_encoding_injective_witness :
  (0 <= 3 <= 6)%Z /\ 3 = 3.
Proof.
  assert (H : (0 <= 3 <= 6)%Z) by lia.
  split; [exact H|].
  exact (weekday_encoding_injective H H eq_refl).
Defined.

End MoreSamples.

(** ** Row counts and the first-seen table *)

Section TableFacts.
Import Frame Preproc.
Open Scope Z_scope.

Lemma kept_rows_length l : forall ds dp,
  (List.length (boolean_mask l (keep_from ds dp l)) <= List.length l)%nat.
Proof.
  induction l as [|y l IH]; intros ds dp; [cbn; lia|].
  rewrite kept_rows_cons. rewrite length_app. specialize (IH (user_session y) (product_id y)).
  destruct ((user_session y =? ds) && (product_id y =? dp)); cbn [List.length]; lia.
Qed.

Lemma kept_rows_full l : forall ds dp,
  List.length (boolean_mask l (keep_from ds dp l)) = List.length l ->
  boolean_mask l (keep_from ds dp l) = l.
Proof.
  induction l as [|y l IH]; intros ds dp Hlen; [reflexivity|].
  rewrite kept_rows_cons in Hlen |- *. rewrite length_app in Hlen.
  pose proof (kept_rows_length l (user_session y) (product_id y)).
  destruct ((user_session y =? ds) && (product_id y =? dp));
    cbn [List.length app] in *; [lia|].
  f_equal. apply IH. lia.
Qed.

(** X19. The removal never adds a row and keeps a frame that is not
    empty from becoming empty; the number of rows stays the same
    exactly when the sorted frame has no two consecutive rows of the
    same session and item. *)
Theorem remove_consecutive_repeats_count (df : list Interaction) :
  valid_session_ids df ->
  let sorted := sort_session_time df in
  let kept := remove_consecutive_repeats df in
  (List.length kept <= List.length df)%nat
  /\ (df <> [] -> kept <> [])
  /\ (List.length kept = List.length df <->
      forall i a b, nth_error sorted i = Some a -> nth_error sorted (S i) = Some b ->
                    same_session_item a b = false).
Proof.
  intros Hv sorted kept.
  assert (Hlen : List.length kept
                 = List.length (boolean_mask sorted (keep_from 0 0 sorted))).
  { unfold kept. rewrite <- (length_map snd), remove_consecutive_repeats_rows.
    reflexivity. }
  assert (Hsl : List.length sorted = List.length df)
    by apply sort_values_length.
  split; [|split].
  - rewrite Hlen, <- Hsl. apply kept_rows_length.
  - intros Hne Hk.
    destruct sorted as [|r l] eqn:E; [destruct df; [congruence|discriminate]|].
    assert (Hin : In (O, r) kept).
    { apply (kept_iff O r Hv). fold sorted. rewrite E. split; [reflexivity|exact I]. }
    rewrite Hk in Hin. destruct Hin.
  - rewrite Hlen, <- Hsl. split.
    + intros H i a b Ha Hb. apply kept_rows_full in H.
      rewrite <- H in Ha, Hb. exact (kept_rows_no_repeat _ _ _ _ Ha Hb).
    + intros Hadj. rewrite kept_rows_all; [reflexivity| |exact Hadj].
      intros x rest Hx. apply sort_session_time_valid in Hv. fold sorted in Hv.
      rewrite Hx in Hv. inversion Hv; subst.
      replace (user_session x =? 0) with false by (symmetry; apply Z.eqb_neq; lia).
      reflexivity.
Qed.

Lemma item_first_interaction_df_In df p m :
  In (p, m) (item_first_interaction_df df) <-> first_seen df p = Some m.
Proof.
  unfold item_first_interaction_df. rewrite in_flat_map. fold (first_seen df). split.
  - intros (k & Hk & Hin). change (agg_min _) with (first_seen df k) in Hin.
    destruct (first_seen df k) as [m'|] eqn:E; [|destruct Hin].
    destruct Hin as [Heq|[]]. inversion Heq; subst. exact E.
  - intros E. exists p. split.
    + apply nodup_In. destruct (first_seen_least _ _ E) as [(r & Hr & Hp & _) _].
      rewrite <- Hp. now apply in_map.
    + change (agg_min _) with (first_seen df p). rewrite E. now left.
Qed.

Lemma item_first_interaction_df_keys df :
  map fst (item_first_interaction_df df) = nodup Z.eq_dec (map product_id df).
Proof.
  unfold item_first_interaction_df.
  assert (H : forall keys, incl keys (map product_id df) ->
            map fst (flat_map (fun p =>
               match agg_min (map event_time_ts
                                  (filter (fun r => product_id r =? p) df)) with
               | Some m => [(p, m)]
               | None => []
               end) keys) = keys).
  { induction keys as [|k keys IH]; intros Hk; [reflexivity|].
    cbn [flat_map]. rewrite map_app, IH by (intros x Hx; apply Hk; now right).
    destruct (item_table_lookup df k) as (m & Hm & _); [apply Hk; now left|].
    unfold first_seen in Hm. rewrite Hm. reflexivity. }
  apply H. intros x Hx. now apply nodup_In in Hx.
Qed.

(** X20. The first-seen table has exactly one row for every item of the
    frame and none for any other item; the row of an item holds the
    least event time of the item. *)
Theorem item_first_interaction_df_table (df : list Interaction) :
  NoDup (map fst (item_first_interaction_df df))
  /\ (forall p, In p (map fst (item_first_interaction_df df))
                <-> exists r, In r df /\ product_id r = p)
  /\ (forall p m, In (p, m) (item_first_interaction_df df) <->
        (exists r, In r df /\ product_id r = p /\ event_time_ts r = m)
        /\ (forall r, In r df -> product_id r = p -> m <= event_time_ts r)).
Proof.
  rewrite item_first_interaction_df_keys. split; [apply NoDup_nodup|]. split.
  - intros p. rewrite nodup_In, in_map_iff. split; intros (r & H1 & H2); eauto.
  - intros p m. rewrite item_first_interaction_df_In. split.
    + apply first_seen_least.
    + intros [Hex Hle]. now apply first_seen_is.
Qed.

End TableFacts.

Section CountSamples.
Import Frame Preproc.

Example sample_log_counts :
  List.length sample_log = 5%nat
  /\ List.length (remove_consecutive_repeats sample_log) = 4%nat.
Proof. split; reflexivity. Qed.

Lemma remove_consecutive_repeats_count_witness :
  valid_session_ids sample_log
  /\ (List.length (remove_consecutive_repeats sample_log)
      <= List.length sample_log)%nat.
Proof.
  split; [exact sample_log_valid|].
  exact (proj1 (remove_consecutive_repeats_count sample_log_valid)).
Defined.

End CountSamples.
